(** * pdf-rag-app: ingestion and retrieval pipeline

    A shallow embedding of [app/data_loader.py], [app/vector_db.py] and
    [app/main.py], and the properties of the pipeline proved over it.

    Conventions.
    - Python [str] is [string]; a character is one code point below 256.
    - A [dict] with string keys is a [gmap string _], a [set] of strings a
      [gset string]; [list(s)] of a set is [elements s] (some order, no
      repetition).
    - Floats only travel through the code (embedding components) or are
      compared (scores); they are rationals here.
    - The embedding model, the text-generation pipeline, the PDF reader,
      the text splitter, uuid5 and the Qdrant client are libraries: the
      code is parametric in them.
    - A call of a library that leaves the process (model inference, a
      Qdrant request) is recorded in a trace, in call order. *)

From Stdlib Require Import ZArith QArith Lia List Ascii String Sorted.
From Stdlib Require Import DecimalString DecimalNat.
From stdpp Require Import base option list gmap strings.

Import ListNotations.
Local Open Scope string_scope.
Local Open Scope list_scope.
Local Open Scope nat_scope.

(** ** Python strings *)

Module PyStr.

(** [str(i)] of a non-negative [int]. *)
Definition str_of_nat (n : nat) : string :=
  NilEmpty.string_of_uint (Nat.to_uint n).

(** [sep.join(parts)]. *)
Fixpoint join (sep : string) (parts : list string) : string :=
  match parts with
  | [] => ""
  | [p] => p
  | p :: ((_ :: _) as rest) => p +:+ sep +:+ join sep rest
  end.

(** [c.isspace()] on the code points below 256. *)
Definition isspace (c : ascii) : bool :=
  let n := nat_of_ascii c in
  ((9 <=? n) && (n <=? 13)) || ((28 <=? n) && (n <=? 32))
  || (n =? 133) || (n =? 160).

(** [s.lstrip()]. *)
Fixpoint lstrip (s : string) : string :=
  match s with
  | EmptyString => EmptyString
  | String c rest => if isspace c then lstrip rest else s
  end.

(** [s.rstrip()]: a character is kept when it is not white space or
    when something is kept after it. *)
Fixpoint rstrip (s : string) : string :=
  match s with
  | EmptyString => EmptyString
  | String c rest =>
      match rstrip rest with
      | EmptyString => if isspace c then EmptyString else String c EmptyString
      | kept => String c kept
      end
  end.

(** [s.strip()]. *)
Definition strip (s : string) : string := rstrip (lstrip s).

(** Truth value of a string: [if s:]. *)
Definition truthy (s : string) : bool :=
  match s with EmptyString => false | _ => true end.

(** All characters of [s] satisfy [p]. *)
Fixpoint all_chars (p : ascii -> bool) (s : string) : bool :=
  match s with
  | EmptyString => true
  | String c rest => p c && all_chars p rest
  end.

Definition is_colon (c : ascii) : bool := Ascii.eqb c ":".

End PyStr.

(** ** Record identifiers: [uuid5(NAMESPACE_URL, f"{source_id}:{i}")] *)

Module Keyer.
Import PyStr.

(** The name that is hashed: [f"{source_id}:{i}"]. *)
Definition key_name (source_id : string) (i : nat) : string :=
  source_id +:+ ":" +:+ str_of_nat i.

(** [uuid5 name] stands for [str(uuid.uuid5(uuid.NAMESPACE_URL, name))]:
    a function of the name, the namespace being a constant. *)
Definition derive_id (uuid5 : string -> string) (source_id : string) (i : nat) : string :=
  uuid5 (key_name source_id i).

(** A collision of the hash: two different names with one digest. *)
Definition collision (uuid5 : string -> string) : Prop :=
  exists n1 n2 : string, n1 <> n2 /\ uuid5 n1 = uuid5 n2.

End Keyer.

(** ** Values that cross the library boundary *)

(** A vector of floats. *)
Abbreviation vector := (list Q).

(** A payload, a result of the generation pipeline: dicts with string
    keys.  Only string values occur in this program. *)
Abbreviation pydict := (gmap string string).

(** [qdrant_client.models.PointStruct]. *)
Record PointStruct := mkPoint {
  point_id : string;
  point_vector : vector;
  point_payload : pydict
}.

(** A hit of [client.search]; [hit_payload] is [None] when the attribute
    is missing or [None]. *)
Record ScoredPoint := mkHit {
  hit_id : string;
  hit_score : Q;
  hit_payload : option pydict
}.

(** A document of [PDFReader().load_data]: one per page; [doc_text] is
    [getattr(d, "text", None)]. *)
Record Document := mkDoc { doc_text : option string }.

(** Exceptions.  [IndexError] and [KeyError] are raised by the code's own
    subscripts, [LibraryError] inside a library call. *)
Inductive Exn : Type :=
| IndexError
| KeyError (key : string)
| LibraryError (what : string).

Inductive result (A : Type) : Type :=
| Ok (a : A)
| Raise (e : Exn).
Arguments Ok {A} a.
Arguments Raise {A} e.

(** Calls that leave the process. *)
Inductive Event : Type :=
| LoadPdfCall (path : string)
| EncodeCall (texts : list string)
| GenerateCall (prompt : string)
| CollectionExistsCall (name : string)
| CreateCollectionCall (name : string) (size : nat)
| GetCollectionCall (name : string)
| UpsertCall (name : string) (points : list PointStruct)
| SearchCall (name : string) (query_vector : vector) (limit : Z).

Definition is_generate (e : Event) : bool :=
  match e with GenerateCall _ => true | _ => false end.

(** ** The libraries

    [St] is the state of the Qdrant server.  The models are functions of
    their input ([do_sample=False]); the client's methods read or change
    the server state. *)
Record Libs (St : Type) : Type := mkLibs {
  (** [PDFReader().load_data(file=path)] *)
  load_data : string -> result (list Document);
  (** [splitter.split_text(t)], the splitter being
      [SentenceSplitter(chunk_size=1000, chunk_overlap=200)] *)
  split_text : string -> list string;
  (** [embedding_model.encode(texts, convert_to_numpy=True).tolist()] *)
  encode : list string -> result (list vector);
  (** [qa_pipeline(prompt, max_length=512, do_sample=False)] *)
  qa_pipeline : string -> result (list pydict);
  (** [str(uuid.uuid5(uuid.NAMESPACE_URL, name))] *)
  uuid5 : string -> string;
  (** [client.collection_exists(name)] *)
  collection_exists : string -> St -> result bool;
  (** [client.create_collection(collection_name=name,
       vectors_config=VectorParams(size=dim, distance=Distance.COSINE))] *)
  create_collection : string -> nat -> St -> result St;
  (** [client.get_collection(name).points_count] *)
  get_collection : string -> St -> result nat;
  (** [client.upsert(name, points=points)] *)
  client_upsert : string -> list PointStruct -> St -> result St;
  (** [client.search(collection_name=name, query_vector=q,
       with_payload=True, limit=k)] *)
  client_search : string -> vector -> Z -> St -> result (list ScoredPoint)
}.
Arguments load_data {St} _ _.
Arguments split_text {St} _ _.
Arguments encode {St} _ _.
Arguments qa_pipeline {St} _ _.
Arguments uuid5 {St} _ _.
Arguments collection_exists {St} _ _ _.
Arguments create_collection {St} _ _ _ _.
Arguments get_collection {St} _ _ _.
Arguments client_upsert {St} _ _ _ _.
Arguments client_search {St} _ _ _ _ _.

(** ** The monad of the code: server state, trace, exceptions *)

Record World (St : Type) : Type := mkWorld {
  server : St;
  trace : list Event
}.
Arguments mkWorld {St} server trace.
Arguments server {St} _.
Arguments trace {St} _.

Definition M (St A : Type) : Type := World St -> result A * World St.

#[global] Instance M_ret {St} : MRet (M St) :=
  fun A a w => (Ok a, w).

#[global] Instance M_bind {St} : MBind (M St) :=
  fun A B f m w =>
    match m w with
    | (Ok a, w') => f a w'
    | (Raise e, w') => (Raise e, w')
    end.

Definition raise {St A} (e : Exn) : M St A := fun w => (Raise e, w).

(** [try: m except Exception: pass], for a body whose value is unused. *)
Definition try_except {St A} (m : M St A) : M St unit :=
  fun w => (Ok tt, snd (m w)).

(** [try: m except Exception as e: h e]. *)
Definition catch {St A} (m : M St A) (h : Exn -> M St A) : M St A :=
  fun w =>
    match m w with
    | (Ok a, w') => (Ok a, w')
    | (Raise e, w') => h e w'
    end.

(** Append one event to the trace. *)
Definition emit {St} (e : Event) : M St unit :=
  fun w => (Ok tt, mkWorld (server w) (trace w ++ [e])).

(** A library call that does not touch the server. *)
Definition call_pure {St A} (e : Event) (r : result A) : M St A :=
  fun w => (r, mkWorld (server w) (trace w ++ [e])).

(** A client call that reads the server. *)
Definition call_read {St A} (e : Event) (f : St -> result A) : M St A :=
  fun w => (f (server w), mkWorld (server w) (trace w ++ [e])).

(** A client call that changes the server; a failed call changes
    nothing. *)
Definition call_write {St} (e : Event) (f : St -> result St) : M St unit :=
  fun w =>
    match f (server w) with
    | Ok s' => (Ok tt, mkWorld s' (trace w ++ [e]))
    | Raise x => (Raise x, mkWorld (server w) (trace w ++ [e]))
    end.

(** A list comprehension whose element expression may raise. *)
Fixpoint comprehension {A B} (f : A -> result B) (l : list A) : result (list B) :=
  match l with
  | [] => Ok []
  | x :: rest =>
      match f x with
      | Raise e => Raise e
      | Ok y =>
          match comprehension f rest with
          | Raise e => Raise e
          | Ok ys => Ok (y :: ys)
          end
      end
  end.

Definition lift {St A} (r : result A) : M St A := fun w => (r, w).

Definition nl : string := String (ascii_of_nat 10) EmptyString.

(** ** app/data_loader.py *)

Module DataLoader.
Section WithLibs.
Context {St : Type} (L : Libs St).

(** [[d.text for d in docs if getattr(d, "text", None)]]: the truthy
    texts, in page order. *)
Definition page_texts (docs : list Document) : list string :=
  omap (fun d =>
          match doc_text d with
          | Some t => if PyStr.truthy t then Some t else None
          | None => None
          end) docs.

(** [for t in texts: chunks.extend(splitter.split_text(t))]. *)
Definition extend_all (texts : list string) : list string :=
  fold_left (fun chunks t => chunks ++ split_text L t) texts [].

Definition load_and_chunk_pdf (path : string) : M St (list string) :=
  docs ← call_pure (LoadPdfCall path) (load_data L path);
  mret (extend_all (page_texts docs)).

(** [embed_texts(texts)]. *)
Definition embed_texts (texts : list string) : M St (list vector) :=
  call_pure (EncodeCall texts) (encode L texts).

End WithLibs.
End DataLoader.

(** ** app/vector_db.py *)

Module VectorDb.

(** The wrapper's attributes; [self.client] is the library. *)
Record QdrantStorage := mkStorage {
  collection : string;
  dim : nat
}.

(** The dict returned by [search]. *)
Record Found := mkFound {
  contexts : list string;
  sources : list string
}.

(** [getattr(r, "payload", None) or {}]. *)
Definition payload_of (r : ScoredPoint) : pydict :=
  match hit_payload r with
  | Some p => p
  | None => ∅
  end.

(** [payload.get("text", "")] and [payload.get("source", "")]. *)
Definition text_of (r : ScoredPoint) : string :=
  default "" (payload_of r !! "text").

Definition source_of (r : ScoredPoint) : string :=
  default "" (payload_of r !! "source").

(** One turn of the loop over the hits. *)
Definition visit (acc : list string * gset string) (r : ScoredPoint)
  : list string * gset string :=
  let text := text_of r in
  let source := source_of r in
  if PyStr.truthy text then (acc.1 ++ [text], {[source]} ∪ acc.2) else acc.

(** The loop of [search], and the dict it returns. *)
Definition gather (results : list ScoredPoint) : Found :=
  let acc := fold_left visit results ([], ∅) in
  mkFound acc.1 (elements acc.2).

(** [PointStruct(id=ids[i], vector=vectors[i], payload=payloads[i])]. *)
Definition point_at (ids : list string) (vectors : list vector)
    (payloads : list pydict) (i : nat) : result PointStruct :=
  match ids !! i, vectors !! i, payloads !! i with
  | Some id, Some v, Some p => Ok (mkPoint id v p)
  | _, _, _ => Raise IndexError
  end.

Section WithLibs.
Context {St : Type} (L : Libs St).

(** [QdrantStorage(url, collection, dim)]; building the client sends
    nothing. *)
Definition init (collection : string) (dim : nat) : M St QdrantStorage :=
  present ← call_read (CollectionExistsCall collection)
                      (collection_exists L collection);
  (if negb present
   then call_write (CreateCollectionCall collection dim)
                   (create_collection L collection dim)
   else mret tt);;
  mret (mkStorage collection dim).

Definition upsert (self : QdrantStorage) (ids : list string)
    (vectors : list vector) (payloads : list pydict) : M St unit :=
  points ← lift (comprehension (point_at ids vectors payloads)
                               (seq 0 (length ids)));
  call_write (UpsertCall (collection self) points)
             (client_upsert L (collection self) points).

Definition search (self : QdrantStorage) (query_vector : vector) (top_k : Z)
  : M St Found :=
  results ← call_read (SearchCall (collection self) query_vector top_k)
                      (client_search L (collection self) query_vector top_k);
  mret (gather results).

End WithLibs.
End VectorDb.

(** ** app/main.py *)

Module Main.
Import VectorDb.

(** [ctx.event.data] of "rag/ingest_pdf": [pdf_path] and, optionally,
    [source_id]. *)
Record IngestData := mkIngestData {
  pdf_path : string;
  source_id : option string
}.

(** [ctx.event.data] of "rag/query_pdf_ai": [question] and, optionally,
    an integer [top_k]. *)
Record QueryData := mkQueryData {
  question : string;
  top_k : option Z
}.

(** [RAGChunkAndSrc], [RAGUpsertResult] and the dict of the query job. *)
Record RAGChunkAndSrc := mkChunkAndSrc {
  chunks : list string;
  chunk_source : string
}.

Record RAGUpsertResult := mkUpsertResult { ingested : nat }.

Record QueryResult := mkQueryResult {
  answer : string;
  answer_sources : list string;
  num_contexts : nat
}.

(** The fixed result of a query without contexts. *)
Definition no_contexts_result : QueryResult :=
  mkQueryResult "No relevant information found in the documents." [] 0.

(** The default arguments of [QdrantStorage()]. *)
Definition default_collection : string := "docs".
Definition default_dim : nat := 384.

(** [{"source": source_id, "text": chunk}]. *)
Definition payload_for (source_id chunk : string) : pydict :=
  <["source" := source_id]> (<["text" := chunk]> ∅).

(** [f"- {c}"]. *)
Definition bullet (c : string) : string := "- " +:+ c.

(** The prompt of the query job. *)
Definition context_block (contexts : list string) : string :=
  PyStr.join (nl +:+ nl) (map bullet contexts).

Definition user_content (contexts : list string) (question : string) : string :=
  ("Context:" +:+ nl +:+ context_block contexts +:+ nl +:+ nl)
  +:+ ("Question: " +:+ question +:+ nl)
  +:+ "Answer concisely using the context above.".

(** The rate limit declared on the ingest function:
    [RateLimit(limit=1, period=timedelta(hours=4),
     key="event.data.source_id")]; the period is in seconds. *)
Record RateLimit := mkRateLimit {
  limit : nat;
  period : Z;
  key : string
}.

Definition ingest_rate_limit : RateLimit :=
  mkRateLimit 1 (4 * 3600) "event.data.source_id".

(** The dict of the [/health] endpoint: the healthy one carries the
    point count, the unhealthy one the exception whose [str] it reports;
    both carry the time stamp. *)
Inductive Health : Type :=
| Healthy (points : nat) (timestamp : string)
| Unhealthy (error : Exn) (timestamp : string).

Section WithLibs.
Context {St : Type} (L : Libs St).

(** [ctx.step.run(name, thunk)] in a run where the step is executed
    once: the value of the thunk. *)
Definition step_run {A} (name : string) (body : M St A) : M St A := body.

Definition embed_texts_async (texts : list string) : M St (list vector) :=
  call_pure (EncodeCall texts) (encode L texts).

(** [result[0]['generated_text'].strip()]. *)
Definition run_qa_async (prompt : string) : M St string :=
  out ← call_pure (GenerateCall prompt) (qa_pipeline L prompt);
  match out with
  | [] => raise IndexError
  | first :: _ =>
      match first !! "generated_text" with
      | None => raise (KeyError "generated_text")
      | Some generated => mret (PyStr.strip generated)
      end
  end.

(** *** The ingest job *)

Definition _load (data : IngestData) : M St RAGChunkAndSrc :=
  let path := pdf_path data in
  let src := default path (source_id data) in
  cs ← DataLoader.load_and_chunk_pdf L path;
  mret (mkChunkAndSrc cs src).

Definition _upsert (chunks_and_src : RAGChunkAndSrc) : M St RAGUpsertResult :=
  let cs := chunks chunks_and_src in
  let src := chunk_source chunks_and_src in
  vecs ← embed_texts_async cs;
  let ids := map (Keyer.derive_id (uuid5 L) src) (seq 0 (length cs)) in
  payloads ← lift (comprehension
                     (fun i => match cs !! i with
                               | Some c => Ok (payload_for src c)
                               | None => Raise IndexError
                               end)
                     (seq 0 (length cs)));
  store ← init L default_collection default_dim;
  upsert L store ids vecs payloads;;
  mret (mkUpsertResult (length cs)).

Definition rag_ingest_pdf (data : IngestData) : M St RAGUpsertResult :=
  chunks_and_src ← step_run "load-and-chunk" (_load data);
  step_run "embed-and-upsert" (_upsert chunks_and_src).

(** *** The query job *)

Definition _search (question : string) (top_k : Z) : M St Found :=
  vecs ← embed_texts_async [question];
  match vecs with
  | [] => raise IndexError
  | query_vec :: _ =>
      store ← init L default_collection default_dim;
      try_except (call_read (GetCollectionCall (collection store))
                            (get_collection L (collection store)));;
      search L store query_vec top_k
  end.

Definition rag_query_pdf_ai (data : QueryData) : M St QueryResult :=
  let q := question data in
  let k := default 5%Z (top_k data) in
  found ← step_run "embed-and-search" (_search q k);
  match contexts found with
  | [] => mret no_contexts_result
  | _ :: _ =>
      let prompt := user_content (contexts found) q in
      ans ← run_qa_async prompt;
      mret (mkQueryResult ans (sources found) (length (contexts found)))
  end.

(** *** The health endpoint

    [now] is [datetime.datetime.now().isoformat()], read when the dict is
    built. *)
Definition health_check (now : string) : M St Health :=
  catch
    (store ← init L default_collection default_dim;
     count ← call_read (GetCollectionCall "docs") (get_collection L "docs");
     mret (Healthy count now))
    (fun e => mret (Unhealthy e now)).

End WithLibs.
End Main.

(** ** app/streamlit_app.py: waiting for a run

    [get_run_output] polls the runs of an event until one is finished or
    the time is over.  What it sees of the outside is, for each turn of
    its loop, the clock read by the loop test and the answer to the
    request made in that turn; these observations are given as a list, in
    order.  A request is observed as failed when [requests.get] raises a
    [RequestException], and otherwise by its status code and, for a
    code 200, the [data] list of its JSON body (no [data]: the empty
    list). *)

Module Ui.

(** One entry of [data]: [run.get("status")] and [run.get("output")],
    [None] for a missing key.  An output is a dict; only its ["error"]
    entry is read here. *)
Record Run := mkRun {
  run_status : option string;
  run_output : option pydict
}.

Inductive Response : Type :=
| RequestFailed
| Answered (status_code : nat) (runs : list Run).

Inductive UiExn : Type :=
| RuntimeError (message : string)
| TimeoutError (timeout_s : Q).

Inductive Outcome : Type :=
| Returned (output : pydict)
| Raised (e : UiExn).

(** [c.lower()] on the code points below 256. *)
Definition lower_char (c : ascii) : ascii :=
  let n := nat_of_ascii c in
  if ((65 <=? n) && (n <=? 90))
     || ((192 <=? n) && (n <=? 222) && negb (n =? 215))
  then ascii_of_nat (n + 32) else c.

Fixpoint lower (s : string) : string :=
  match s with
  | EmptyString => EmptyString
  | String c rest => String (lower_char c) (lower rest)
  end.

(** [x in [a, b]] for strings. *)
Definition among (x : string) (l : list string) : bool :=
  existsb (String.eqb x) l.

(** What one turn of the loop makes of the answer to its request:
    [Some] outcome when the first run is finished, [None] to go on. *)
Definition inspect (resp : Response) : option Outcome :=
  match resp with
  | RequestFailed => None
  | Answered code runs =>
      if code =? 200 then
        match runs with
        | [] => None
        | run :: _ =>
            let status := lower (default "" (run_status run)) in
            if among status ["completed"; "succeeded"] then
              Some (Returned (default ∅ (run_output run)))
            else if among status ["failed"; "cancelled"] then
              let error_msg :=
                default "Unknown error" (default ∅ (run_output run) !! "error") in
              Some (Raised (RuntimeError ("Function failed: " +:+ error_msg)))
            else None
        end
      else None
  end.

(** [get_run_output(event_id, timeout_s, poll_interval)], [start] being
    the clock at entry; [None] when the observations end before the loop
    does. *)
Fixpoint get_run_output (timeout_s start : Q) (observed : list (Q * Response))
  : option Outcome :=
  match observed with
  | [] => None
  | (now, resp) :: later =>
      if Qlt_le_dec (now - start) timeout_s then
        match inspect resp with
        | Some outcome => Some outcome
        | None => get_run_output timeout_s start later
        end
      else Some (Raised (TimeoutError timeout_s))
  end.

End Ui.

(** ** A plain window splitter

    The splitter of the repository is the library's [SentenceSplitter].
    The one below is the fixed window that the chunk-coverage property
    describes: windows of [size] characters every [size - overlap]
    characters, the last one possibly shorter, nothing for blank text.
    It stands in for the library where a concrete splitter is needed. *)

Module Window.

(** Windows of [s] from offset [off] on; [fuel] bounds their number. *)
Fixpoint windows (fuel size stride off : nat) (s : string) : list string :=
  match fuel with
  | 0 => []
  | S fuel' =>
      if off <? String.length s then
        substring off size s ::
          (if off + size <? String.length s
           then windows fuel' size stride (off + stride) s
           else [])
      else []
  end.

Definition window_split (size overlap : nat) (s : string) : list string :=
  if PyStr.all_chars PyStr.isspace s then []
  else windows (String.length s) size (size - overlap) 0 s.

End Window.

(** ** A scripted Qdrant server

    A test double of the client: collections with their vector size, the
    points upserted so far, and the ranking a search answers from.  Like
    the server it refuses a vector of the wrong size and a limit below
    one. *)

Module Scripted.

Record Server := mkServer {
  collections : gmap string nat;
  stored : gmap (string * string) PointStruct;
  ranking : list ScoredPoint
}.

Definition exists_ (name : string) (s : Server) : result bool :=
  Ok (bool_decide (is_Some (collections s !! name))).

Definition create (name : string) (size : nat) (s : Server) : result Server :=
  match collections s !! name with
  | Some _ => Raise (LibraryError "collection already exists")
  | None => Ok (mkServer (<[name := size]> (collections s)) (stored s) (ranking s))
  end.

Definition count (name : string) (s : Server) : result nat :=
  match collections s !! name with
  | Some _ => Ok (length (filter (fun kv => kv.1.1 = name) (map_to_list (stored s))))
  | None => Raise (LibraryError "collection not found")
  end.

Definition put (name : string) (points : list PointStruct) (s : Server)
  : result Server :=
  match collections s !! name with
  | None => Raise (LibraryError "collection not found")
  | Some size =>
      if forallb (fun p => length (point_vector p) =? size) points
      then Ok (mkServer (collections s)
                 (fold_left (fun m p => <[(name, point_id p) := p]> m)
                            points (stored s))
                 (ranking s))
      else Raise (LibraryError "wrong vector size")
  end.

Definition query (name : string) (q : vector) (k : Z) (s : Server)
  : result (list ScoredPoint) :=
  match collections s !! name with
  | None => Raise (LibraryError "collection not found")
  | Some size =>
      if negb (length q =? size) then Raise (LibraryError "wrong vector size")
      else if (k <? 1)%Z then Raise (LibraryError "limit below one")
      else Ok (take (Z.to_nat k) (ranking s))
  end.

(** Libraries around the scripted server: a reader that returns [pages]
    for every path, the plain window splitter, an embedding of size two,
    a generator [gen] and a transparent stand-in for uuid5. *)
Definition libs (pages : list Document)
    (gen : string -> result (list pydict)) : Libs Server :=
  mkLibs Server
    (fun _ => Ok pages)
    (Window.window_split 1000 200)
    (fun texts => Ok (map (fun t => [inject_Z (Z.of_nat (String.length t)); 1%Q]) texts))
    gen
    (fun name => "uuid5(" +:+ name +:+ ")")
    exists_ create count put query.

(** A generator that always fails, and one that answers [text]. *)
Definition gen_fails : string -> result (list pydict) :=
  fun _ => Raise (LibraryError "generation failed").

Definition gen_says (text : string) : string -> result (list pydict) :=
  fun _ => Ok [ {[ "generated_text" := text ]} ].

Definition world (colls : list (string * nat)) (hits : list ScoredPoint)
  : World Server :=
  mkWorld (mkServer (list_to_map colls) ∅ hits) [].

Definition hit (id : string) (score : Q) (source text : string) : ScoredPoint :=
  mkHit id score (Some (Main.payload_for source text)).

(** A ranking with a hit of empty text and a hit without payload. *)
Definition sample_hits : list ScoredPoint :=
  [ hit "p1" 0.9 "s.pdf" "alpha";
    hit "p2" 0.5 "s.pdf" "";
    mkHit "p3" 0.4 None;
    hit "p4" 0.3 "t.pdf" "delta" ].

(** A document of four pages, two of them without text. *)
Definition sample_pages : list Document :=
  [ mkDoc (Some "ab"); mkDoc None; mkDoc (Some ""); mkDoc (Some "cd") ].

(** A text of [n] characters. *)
Definition text_of_length (n : nat) : string :=
  string_of_list_ascii (repeat "x"%char n).

End Scripted.
(** ** Notions used to state the properties *)

(** [adds P m]: whatever the start, [m] only appends events, and all of
    them satisfy [P]. *)
Definition adds {St A} (P : Event -> Prop) (m : M St A) : Prop :=
  forall w, exists evs, trace (m w).2 = trace w ++ evs /\ Forall P evs.

(** The hits that [search] keeps: those with a non-empty text. *)
Definition kept (results : list ScoredPoint) : list ScoredPoint :=
  filter (fun r => VectorDb.text_of r <> "") results.

(** Ranked by score, best first. *)
Definition by_score_desc (a b : ScoredPoint) : Prop :=
  (hit_score b <= hit_score a)%Q.

(** The libraries [L] with another [get_collection]. *)
Definition with_get_collection {St} (g : string -> St -> result nat)
    (L : Libs St) : Libs St :=
  mkLibs St (load_data L) (split_text L) (encode L) (qa_pipeline L) (uuid5 L)
    (collection_exists L) (create_collection L) g
    (client_upsert L) (client_search L).

(** A hit that carries the payload of a stored point. *)
Definition hit_of_point (score : Q) (p : PointStruct) : ScoredPoint :=
  mkHit (point_id p) score (Some (point_payload p)).

(** [adds_at w P m]: started in [w], [m] only appends events, and all of
    them satisfy [P]. *)
Definition adds_at {St A} (w : World St) (P : Event -> Prop) (m : M St A)
  : Prop :=
  exists evs, trace (m w).2 = trace w ++ evs /\ Forall P evs.

(** The libraries [L] with another embedding model. *)
Definition with_encode {St} (enc : list string -> result (list vector))
    (L : Libs St) : Libs St :=
  mkLibs St (load_data L) (split_text L) enc (qa_pipeline L) (uuid5 L)
    (collection_exists L) (create_collection L) (get_collection L)
    (client_upsert L) (client_search L).

(** The events of a trace that are upserts. *)
Definition is_upsert (e : Event) : bool :=
  match e with UpsertCall _ _ => true | _ => false end.

(** The events of a trace that change the server. *)
Definition is_write (e : Event) : bool :=
  match e with
  | CreateCollectionCall _ _ | UpsertCall _ _ => true
  | _ => false
  end.


(** * Properties *)

(** ** Record identifiers *)

(** Decimal digits never contain a colon. *)

Lemma uint_digits_no_colon (d : Decimal.uint) :
  PyStr.all_chars (fun c => negb (PyStr.is_colon c)) (NilEmpty.string_of_uint d) = true.
Proof. induction d; simpl; auto. Qed.

Lemma str_of_nat_no_colon (n : nat) :
  PyStr.all_chars (fun c => negb (PyStr.is_colon c)) (PyStr.str_of_nat n) = true.
Proof. apply uint_digits_no_colon. Qed.

Lemma str_of_nat_inj (n m : nat) :
  PyStr.str_of_nat n = PyStr.str_of_nat m -> n = m.
Proof.
  unfold PyStr.str_of_nat. intros H.
  apply Unsigned.to_uint_inj.
  assert (Some (Nat.to_uint n) = Some (Nat.to_uint m)) as E.
  { rewrite <- !NilEmpty.usu. now rewrite H. }
  now inversion E.
Qed.

(** A colon-free suffix cannot hide a [":"] separator. *)
Lemma no_colon_not_sep (t d d' : string) :
  PyStr.all_chars (fun c => negb (PyStr.is_colon c)) d = true ->
  d <> t +:+ ":" +:+ d'.
Proof.
  revert d. induction t as [|c t IH]; intros d Hd E; subst d; simpl in Hd.
  - discriminate.
  - apply andb_prop in Hd as [_ Hd]. now apply (IH _ Hd).
Qed.

Lemma sep_split_inj (s s' d d' : string) :
  PyStr.all_chars (fun c => negb (PyStr.is_colon c)) d = true ->
  PyStr.all_chars (fun c => negb (PyStr.is_colon c)) d' = true ->
  s +:+ ":" +:+ d = s' +:+ ":" +:+ d' -> s = s' /\ d = d'.
Proof.
  intros Hd Hd'. revert s'.
  induction s as [|c s IH]; intros [|c' s'] E; simpl in E.
  - split; [reflexivity|]. now inversion E.
  - inversion E as [[Hc Ht]]. exfalso. now apply (no_colon_not_sep s' d d').
  - inversion E as [[Hc Ht]]. exfalso. symmetry in Ht.
    now apply (no_colon_not_sep s d' d).
  - inversion E as [[Hc Ht]]. destruct (IH _ Ht) as [-> ->]. now split.
Qed.

Lemma key_name_inj (s s' : string) (i i' : nat) :
  Keyer.key_name s i = Keyer.key_name s' i' -> s = s' /\ i = i'.
Proof.
  unfold Keyer.key_name. intros E.
  apply sep_split_inj in E; try apply str_of_nat_no_colon.
  destruct E as [-> E]. split; [reflexivity|]. now apply str_of_nat_inj.
Qed.

Lemma derive_id_eq_cases (uuid5 : string -> string) (s s' : string) (i i' : nat) :
  Keyer.derive_id uuid5 s i = Keyer.derive_id uuid5 s' i' ->
  (s = s' /\ i = i') \/ Keyer.collision uuid5.
Proof.
  intros E. unfold Keyer.derive_id in E.
  destruct (string_dec (Keyer.key_name s i) (Keyer.key_name s' i')) as [K|K].
  - left. now apply key_name_inj.
  - right. exists (Keyer.key_name s i), (Keyer.key_name s' i'). now split.
Qed.

(** With a collision-free hash the identifiers of one source are pairwise
    distinct. *)
Lemma derive_ids_NoDup (uuid5 : string -> string) (s : string) (n : nat) :
  ~ Keyer.collision uuid5 ->
  NoDup (map (Keyer.derive_id uuid5 s) (seq 0 n)).
Proof.
  intros Hnc. apply NoDup_fmap_2_strong; [|apply NoDup_seq].
  intros i j _ _ E.
  destruct (derive_id_eq_cases uuid5 s s i j E) as [[_ ?]|C]; [assumption|].
  contradiction.
Qed.

(** C1. The identifier of a record is [uuid5] of the name
    ["{source_id}:{index}"] and of nothing else: equal pairs give equal
    identifiers, and two pairs with one identifier are the same pair
    unless [uuid5] collides on their two names. *)
Theorem derive_id_function_of_pair (uuid5 : string -> string)
    (s s' : string) (i i' : nat) :
  Keyer.derive_id uuid5 s i = uuid5 (s +:+ ":" +:+ PyStr.str_of_nat i)
  /\ (s = s' /\ i = i' ->
      Keyer.derive_id uuid5 s i = Keyer.derive_id uuid5 s' i')
  /\ (Keyer.derive_id uuid5 s i = Keyer.derive_id uuid5 s' i' ->
      (s = s' /\ i = i') \/ Keyer.collision uuid5).
Proof.
  split; [reflexivity|]. split.
  - intros [-> ->]. reflexivity.
  - apply derive_id_eq_cases.
Qed.

(** ** The monad: what a computation adds to the trace *)

Section Adds.
Context {St : Type} (P : Event -> Prop).

Lemma adds_ret {A} (a : A) : adds P (mret a : M St A).
Proof. intros w. exists []. split; [now rewrite app_nil_r | constructor]. Qed.

Lemma adds_raise {A} (e : Exn) : adds P (raise e : M St A).
Proof. intros w. exists []. split; [now rewrite app_nil_r | constructor]. Qed.

Lemma adds_lift {A} (r : result A) : adds P (lift r : M St A).
Proof. intros w. exists []. split; [now rewrite app_nil_r | constructor]. Qed.

Lemma adds_bind {A B} (m : M St A) (f : A -> M St B) :
  adds P m -> (forall a, adds P (f a)) -> adds P (m ≫= f).
Proof.
  intros Hm Hf w. unfold mbind, M_bind.
  destruct (Hm w) as (e1 & E1 & F1). destruct (m w) as [[a|x] w1]; simpl in *.
  - destruct (Hf a w1) as (e2 & E2 & F2). exists (e1 ++ e2). split.
    + rewrite E2, E1. now rewrite app_assoc.
    + now apply Forall_app.
  - now exists e1.
Qed.

Lemma adds_call_pure {A} (e : Event) (r : result A) :
  P e -> adds P (call_pure e r : M St A).
Proof. intros He w. exists [e]. split; [reflexivity | now repeat constructor]. Qed.

Lemma adds_call_read {A} (e : Event) (f : St -> result A) :
  P e -> adds P (call_read e f).
Proof. intros He w. exists [e]. split; [reflexivity | now repeat constructor]. Qed.

Lemma adds_call_write (e : Event) (f : St -> result St) :
  P e -> adds P (call_write e f).
Proof.
  intros He w. exists [e]. unfold call_write.
  destruct (f (server w)); (split; [reflexivity | now repeat constructor]).
Qed.

Lemma adds_try_except {A} (m : M St A) : adds P m -> adds P (try_except m).
Proof. intros Hm w. exact (Hm w). Qed.

End Adds.

(** ** The store wrapper *)

Section Wrapper.
Context {St : Type} (L : Libs St).

Lemma init_present (name : string) (d : nat) (w : World St) :
  collection_exists L name (server w) = Ok true ->
  VectorDb.init L name d w =
    (Ok (VectorDb.mkStorage name d),
     mkWorld (server w) (trace w ++ [CollectionExistsCall name])).
Proof.
  intros E. unfold VectorDb.init, mbind, M_bind, call_read. now rewrite E.
Qed.

Lemma init_absent (name : string) (d : nat) (w : World St) (s' : St) :
  collection_exists L name (server w) = Ok false ->
  create_collection L name d (server w) = Ok s' ->
  VectorDb.init L name d w =
    (Ok (VectorDb.mkStorage name d),
     mkWorld s' (trace w ++ [CollectionExistsCall name;
                             CreateCollectionCall name d])).
Proof.
  intros E C. unfold VectorDb.init, mbind, M_bind, call_read, call_write.
  rewrite E. simpl. rewrite C. simpl. now rewrite <- app_assoc.
Qed.

(** A wrapper that was built names the collection it was asked for. *)
Lemma init_ok (name : string) (d : nat) (w w' : World St)
    (store : VectorDb.QdrantStorage) :
  VectorDb.init L name d w = (Ok store, w') ->
  store = VectorDb.mkStorage name d /\
  exists created : bool,
    trace w' = trace w ++ CollectionExistsCall name ::
                 (if created then [CreateCollectionCall name d] else []).
Proof.
  unfold VectorDb.init, mbind, M_bind, call_read, call_write. simpl.
  destruct (collection_exists L name (server w)) as [[|]|x]; simpl; [| |discriminate].
  - intros [= <- <-]. split; [reflexivity|]. now exists false.
  - destruct (create_collection L name d (server w)); simpl; [|discriminate].
    intros [= <- <-]. split; [reflexivity|]. exists true. simpl.
    now rewrite <- app_assoc.
Qed.

Lemma search_run (self : VectorDb.QdrantStorage) (q : vector) (k : Z)
    (w : World St) :
  VectorDb.search L self q k w =
    (match client_search L (VectorDb.collection self) q k (server w) with
     | Ok hits => Ok (VectorDb.gather hits)
     | Raise e => Raise e
     end,
     mkWorld (server w)
             (trace w ++ [SearchCall (VectorDb.collection self) q k])).
Proof.
  unfold VectorDb.search, mbind, M_bind, call_read.
  now destruct (client_search L (VectorDb.collection self) q k (server w)).
Qed.

End Wrapper.

(** ** The loop over the hits *)

Lemma truthy_iff (s : string) : PyStr.truthy s = true <-> s <> "".
Proof. destruct s; simpl; split; congruence. Qed.

Lemma visit_fold (rs : list ScoredPoint) (cs : list string) (ss : gset string) :
  fold_left VectorDb.visit rs (cs, ss) =
    (cs ++ map VectorDb.text_of (kept rs),
     list_to_set (map VectorDb.source_of (kept rs)) ∪ ss).
Proof.
  revert cs ss. induction rs as [|r rs IH]; intros cs ss; simpl.
  - rewrite app_nil_r. f_equal. symmetry. apply (left_id_L ∅ (∪)).
  - unfold kept. rewrite filter_cons. unfold VectorDb.visit at 2.
    destruct (PyStr.truthy (VectorDb.text_of r)) eqn:T.
    + apply truthy_iff in T. rewrite decide_True by assumption.
      simpl. rewrite IH. unfold kept. rewrite <- app_assoc. simpl.
      f_equal. rewrite (assoc_L (∪)). f_equal. apply (comm_L (∪)).
    + assert (~ VectorDb.text_of r <> "") as N.
      { intros H. apply truthy_iff in H. congruence. }
      rewrite decide_False by assumption. apply IH.
Qed.

Lemma gather_contexts (rs : list ScoredPoint) :
  VectorDb.contexts (VectorDb.gather rs) = map VectorDb.text_of (kept rs).
Proof. unfold VectorDb.gather. now rewrite visit_fold. Qed.

Lemma gather_sources (rs : list ScoredPoint) :
  VectorDb.sources (VectorDb.gather rs) =
    elements (list_to_set (map VectorDb.source_of (kept rs)) : gset string).
Proof.
  unfold VectorDb.gather. rewrite visit_fold. simpl. f_equal.
  apply (right_id_L ∅ (∪)).
Qed.


Lemma kept_length (rs : list ScoredPoint) : length (kept rs) <= length rs.
Proof. apply length_filter. Qed.



(** ** Search: bound and order *)

#[local] Instance by_score_desc_trans : Transitive by_score_desc.
Proof.
  intros a b c Hab Hbc. unfold by_score_desc in *.
  now apply Qle_trans with (hit_score b).
Qed.

Lemma kept_strongly_sorted (rs : list ScoredPoint) :
  StronglySorted by_score_desc rs -> StronglySorted by_score_desc (kept rs).
Proof.
  unfold kept. induction 1 as [|r rs Hs IH Hall]; [constructor|].
  rewrite filter_cons. destruct (decide (VectorDb.text_of r <> "")); [|assumption].
  constructor; [assumption|].
  rewrite Forall_forall in Hall. apply Forall_forall.
  intros x Hx. apply Hall. apply list_elem_of_filter in Hx. tauto.
Qed.

Lemma kept_sorted (rs : list ScoredPoint) :
  Sorted by_score_desc rs -> Sorted by_score_desc (kept rs).
Proof.
  intros H. apply StronglySorted_Sorted, kept_strongly_sorted.
  apply Sorted.Sorted_StronglySorted; [|assumption].
  intros a b c. apply by_score_desc_trans.
Qed.

Lemma elements_of_list_length (l : list string) :
  length (elements (list_to_set l : gset string)) <= length l.
Proof.
  apply submseteq_length, NoDup_submseteq; [apply NoDup_elements|].
  intros x Hx. now apply elem_of_elements, elem_of_list_to_set in Hx.
Qed.

(** What [search] adds to the client's answer.  The code neither cuts
    nor sorts the hits: it keeps them in the client's order.  So when the
    client's answer has at most [top_k] hits, ranked by score, the
    contexts are at most [top_k] and follow that ranking.  Whether the
    answer is so bounded and ranked is the store's matter. *)
Theorem search_bounded_and_ranked {St} (L : Libs St)
    (self : VectorDb.QdrantStorage) (q : vector) (k : Z) (w : World St)
    (hits : list ScoredPoint) :
  (0 < k)%Z ->
  client_search L (VectorDb.collection self) q k (server w) = Ok hits ->
  length hits <= Z.to_nat k ->
  Sorted by_score_desc hits ->
  exists found w',
    VectorDb.search L self q k w = (Ok found, w')
    /\ VectorDb.contexts found = map VectorDb.text_of (kept hits)
    /\ sublist (kept hits) hits
    /\ Sorted by_score_desc (kept hits)
    /\ (Z.of_nat (length (VectorDb.contexts found)) <= k)%Z
    /\ length (VectorDb.sources found) <= length (VectorDb.contexts found).
Proof.
  intros Hk Hs Hlen Hsorted.
  exists (VectorDb.gather hits). eexists. rewrite search_run, Hs.
  split; [reflexivity|]. split; [apply gather_contexts|].
  split; [apply sublist_filter|]. split; [now apply kept_sorted|].
  rewrite gather_contexts, gather_sources, !length_map. split.
  - pose proof (kept_length hits). lia.
  - etransitivity; [apply elements_of_list_length|]. now rewrite length_map.
Qed.

(** ** List comprehensions *)

Lemma comprehension_Forall2 {A B} (f : A -> result B) (l : list A) (ys : list B) :
  comprehension f l = Ok ys -> Forall2 (fun x y => f x = Ok y) l ys.
Proof.
  revert ys. induction l as [|x l IH]; intros ys; simpl.
  - intros [= <-]. constructor.
  - destruct (f x) as [y|e] eqn:Fx; [|discriminate].
    destruct (comprehension f l) as [zs|e]; [|discriminate].
    intros [= <-]. constructor; [assumption | now apply IH].
Qed.

Lemma comprehension_range {B} (f : nat -> result B) (n : nat) (ys : list B) :
  comprehension f (seq 0 n) = Ok ys ->
  length ys = n /\ forall i, i < n -> exists y, ys !! i = Some y /\ f i = Ok y.
Proof.
  intros H. apply comprehension_Forall2 in H.
  pose proof (Forall2_length _ _ _ H) as Hlen. rewrite length_seq in Hlen.
  split; [congruence|]. intros i Hi.
  assert (seq 0 n !! i = Some i) as Hseq by now apply lookup_seq.
  destruct (Forall2_lookup_l _ _ _ _ _ H Hseq) as (y & Hy & Fy). now exists y.
Qed.

(** The points of [upsert]: position [i] holds [ids[i]], [vectors[i]] and
    [payloads[i]]. *)
Lemma points_lookup (ids : list string) (vs : list vector) (ps : list pydict)
    (points : list PointStruct) :
  comprehension (VectorDb.point_at ids vs ps) (seq 0 (length ids)) = Ok points ->
  length points = length ids /\
  forall i, i < length ids ->
    exists id v p, ids !! i = Some id /\ vs !! i = Some v /\ ps !! i = Some p
                   /\ points !! i = Some (mkPoint id v p).
Proof.
  intros H. apply comprehension_range in H as [Hlen Hat].
  split; [assumption|]. intros i Hi.
  destruct (Hat i Hi) as (y & Hy & Fy). unfold VectorDb.point_at in Fy.
  destruct (ids !! i) as [id|]; [|discriminate].
  destruct (vs !! i) as [v|]; [|discriminate].
  destruct (ps !! i) as [p|]; [|discriminate].
  injection Fy as <-. now exists id, v, p.
Qed.

Lemma points_vectors (ids : list string) (vs : list vector) (ps : list pydict)
    (points : list PointStruct) :
  comprehension (VectorDb.point_at ids vs ps) (seq 0 (length ids)) = Ok points ->
  map point_vector points = take (length ids) vs.
Proof.
  intros H. apply points_lookup in H as [Hlen Hat].
  apply list_eq. intros i. rewrite list_lookup_fmap.
  destruct (decide (i < length ids)) as [Hi|Hi].
  - destruct (Hat i Hi) as (id & v & p & _ & Hv & _ & Hp).
    rewrite Hp, lookup_take_lt by assumption. now rewrite Hv.
  - rewrite lookup_take_ge by lia.
    rewrite (lookup_ge_None_2 points i) by lia. reflexivity.
Qed.

Lemma upsert_run {St} (L : Libs St) (self : VectorDb.QdrantStorage)
    (ids : list string) (vs : list vector) (ps : list pydict)
    (points : list PointStruct) (w : World St) :
  comprehension (VectorDb.point_at ids vs ps) (seq 0 (length ids)) = Ok points ->
  VectorDb.upsert L self ids vs ps w =
    call_write (UpsertCall (VectorDb.collection self) points)
               (client_upsert L (VectorDb.collection self) points) w.
Proof.
  intros H. unfold VectorDb.upsert, mbind, M_bind, lift. now rewrite H.
Qed.

(** ** Construction of the wrapper *)

(** C3, as the code has it.  The constructor asks whether the collection
    exists and nothing else: an existing collection is taken as it is,
    whatever its size, and an absent one is created with the requested
    size.  [upsert] does not look at [dim]: the vectors reach the client
    as they were given, whatever their length. *)
Theorem init_checks_presence_only {St} (L : Libs St) (name : string)
    (d : nat) (w : World St) :
  (collection_exists L name (server w) = Ok true ->
   VectorDb.init L name d w =
     (Ok (VectorDb.mkStorage name d),
      mkWorld (server w) (trace w ++ [CollectionExistsCall name])))
  /\ (forall s', collection_exists L name (server w) = Ok false ->
        create_collection L name d (server w) = Ok s' ->
        VectorDb.init L name d w =
          (Ok (VectorDb.mkStorage name d),
           mkWorld s' (trace w ++ [CollectionExistsCall name;
                                   CreateCollectionCall name d])))
  /\ (forall d' ids vs ps,
        VectorDb.upsert L (VectorDb.mkStorage name d) ids vs ps w =
        VectorDb.upsert L (VectorDb.mkStorage name d') ids vs ps w)
  /\ (forall ids vs ps points,
        comprehension (VectorDb.point_at ids vs ps) (seq 0 (length ids)) = Ok points ->
        map point_vector points = take (length ids) vs
        /\ trace (VectorDb.upsert L (VectorDb.mkStorage name d) ids vs ps w).2 =
             trace w ++ [UpsertCall name points]).
Proof.
  split; [apply init_present|]. split; [intros s'; apply init_absent|].
  split; [reflexivity|]. intros ids vs ps points H.
  split; [now apply (points_vectors ids vs ps)|].
  rewrite (upsert_run L _ ids vs ps points w H). unfold call_write. simpl.
  now destruct (client_upsert L name points (server w)).
Qed.

(** ** [str.strip] *)

Lemma app_String (c : ascii) (s t : string) :
  String c s +:+ t = String c (s +:+ t).
Proof. reflexivity. Qed.

Lemma app_empty (t : string) : "" +:+ t = t.
Proof. reflexivity. Qed.

Lemma app_String_assoc (a b c : string) : (a +:+ b) +:+ c = a +:+ b +:+ c.
Proof.
  induction a as [|x a IH]; [reflexivity|].
  rewrite !app_String. now f_equal.
Qed.

Lemma lstrip_split (s : string) :
  exists l, s = l +:+ PyStr.lstrip s /\ PyStr.all_chars PyStr.isspace l = true.
Proof.
  induction s as [|c s (l & E & Hl)]; simpl.
  - now exists "".
  - destruct (PyStr.isspace c) eqn:Hc.
    + exists (String c l). rewrite app_String. simpl. rewrite Hc.
      split; [now f_equal | assumption].
    + now exists "".
Qed.

Lemma lstrip_head (s : string) (c : ascii) (t : string) :
  PyStr.lstrip s = String c t -> PyStr.isspace c = false.
Proof.
  induction s as [|a s IH]; simpl; [discriminate|].
  destruct (PyStr.isspace a) eqn:Ha; [assumption|].
  intros [= <- _]. assumption.
Qed.

Lemma rstrip_split (s : string) :
  exists r, s = PyStr.rstrip s +:+ r /\ PyStr.all_chars PyStr.isspace r = true.
Proof.
  induction s as [|c s (r & E & Hr)]; simpl.
  - now exists "".
  - destruct (PyStr.rstrip s) as [|k kept] eqn:R.
    + rewrite app_empty in E. subst s. destruct (PyStr.isspace c) eqn:Hc.
      * exists (String c r). rewrite app_empty. simpl. now rewrite Hc.
      * exists r. now rewrite app_String, app_empty.
    + exists r. rewrite app_String. split; [now f_equal | assumption].
Qed.

Lemma rstrip_last (s t : string) (c : ascii) :
  PyStr.rstrip s = t +:+ String c "" -> PyStr.isspace c = false.
Proof.
  revert t. induction s as [|a s IH]; intros t; simpl.
  - destruct t; discriminate.
  - destruct (PyStr.rstrip s) as [|k kept] eqn:R.
    + destruct (PyStr.isspace a) eqn:Ha.
      * destruct t; discriminate.
      * destruct t as [|x t]; rewrite ?app_String, ?app_empty.
        -- intros [= <-]. assumption.
        -- intros [= _ E]. destruct t; discriminate.
    + destruct t as [|x t]; rewrite ?app_String, ?app_empty; [discriminate|].
      intros [= _ E]. now apply (IH t).
Qed.

Lemma rstrip_head (s : string) (c : ascii) (t : string) :
  PyStr.rstrip s = String c t -> exists t', s = String c t'.
Proof.
  destruct s as [|a s]; simpl; [discriminate|].
  destruct (PyStr.rstrip s); [destruct (PyStr.isspace a)|];
    try discriminate; intros [= <- _]; now eexists.
Qed.

(** [s.strip()] is [s] without a blank prefix and a blank suffix, and
    neither begins nor ends with white space. *)
Lemma strip_spec (s : string) :
  (exists l r, s = l +:+ PyStr.strip s +:+ r
               /\ PyStr.all_chars PyStr.isspace l = true
               /\ PyStr.all_chars PyStr.isspace r = true)
  /\ (forall c t, PyStr.strip s = String c t -> PyStr.isspace c = false)
  /\ (forall t c, PyStr.strip s = t +:+ String c "" -> PyStr.isspace c = false).
Proof.
  unfold PyStr.strip. split; [|split].
  - destruct (lstrip_split s) as (l & El & Hl).
    destruct (rstrip_split (PyStr.lstrip s)) as (r & Er & Hr).
    exists l, r. split; [|now split]. now rewrite <- Er.
  - intros c t E. apply rstrip_head in E as (t' & E).
    now apply lstrip_head in E.
  - intros t c. apply rstrip_last.
Qed.

(** ** The query job *)

Section QueryJob.
Context {St : Type} (L : Libs St).

Lemma init_adds (P : Event -> Prop) (name : string) (d : nat) :
  P (CollectionExistsCall name) -> P (CreateCollectionCall name d) ->
  adds P (VectorDb.init L name d).
Proof.
  intros He Hc. unfold VectorDb.init.
  apply adds_bind; [now apply adds_call_read|]. intros b.
  apply adds_bind; [|intros; apply adds_ret].
  destruct (negb b); [now apply adds_call_write | apply adds_ret].
Qed.

(** The search step never calls the generator. *)
Lemma _search_no_generate (q : string) (k : Z) :
  adds (fun e => is_generate e = false) (Main._search L q k).
Proof.
  unfold Main._search, Main.embed_texts_async.
  apply adds_bind; [now apply adds_call_pure|]. intros [|v vs].
  - apply adds_raise.
  - apply adds_bind; [now apply init_adds|]. intros store.
    apply adds_bind; [apply adds_try_except; now apply adds_call_read|].
    intros _. unfold VectorDb.search.
    apply adds_bind; [now apply adds_call_read | intros; apply adds_ret].
Qed.

(** The search step starts with the embedding of the question. *)
Lemma _search_embeds_first (q : string) (k : Z) (w : World St) :
  exists evs, trace (Main._search L q k w).2 = trace w ++ EncodeCall [q] :: evs.
Proof.
  unfold Main._search, Main.embed_texts_async. unfold mbind at 1.
  unfold M_bind, call_pure.
  destruct (encode L [q]) as [[|v vs]|e]; simpl; try (now exists []).
  match goal with
  | |- context [trace (?m ?w0).2] =>
      assert (adds (fun _ => True) m) as Hadd
  end.
  { apply adds_bind; [now apply init_adds|]. intros store.
    apply adds_bind; [apply adds_try_except; now apply adds_call_read|].
    intros _. unfold VectorDb.search.
    apply adds_bind; [now apply adds_call_read | intros; apply adds_ret]. }
  match goal with
  | |- context [trace (?m ?w0).2] => destruct (Hadd w0) as (evs & E & _)
  end.
  exists evs. rewrite E. simpl. now rewrite <- app_assoc.
Qed.

Lemma run_qa_appends (prompt : string) (w : World St) :
  trace (Main.run_qa_async L prompt w).2 = trace w ++ [GenerateCall prompt].
Proof.
  unfold Main.run_qa_async, mbind, M_bind, call_pure.
  destruct (qa_pipeline L prompt) as [[|o os]|e]; simpl; try reflexivity.
  now destruct (o !! "generated_text").
Qed.

Lemma query_run (data : Main.QueryData) (w : World St) :
  Main.rag_query_pdf_ai L data w =
    match Main._search L (Main.question data)
                       (default 5%Z (Main.top_k data)) w with
    | (Ok found, w1) =>
        match VectorDb.contexts found with
        | [] => (Ok Main.no_contexts_result, w1)
        | _ :: _ =>
            let prompt := Main.user_content (VectorDb.contexts found)
                                            (Main.question data) in
            (ans ← Main.run_qa_async L prompt;
             mret (Main.mkQueryResult ans (VectorDb.sources found)
                     (length (VectorDb.contexts found)))) w1
        end
    | (Raise e, w1) => (Raise e, w1)
    end.
Proof.
  unfold Main.rag_query_pdf_ai, Main.step_run. unfold mbind at 1. unfold M_bind.
  destruct (Main._search L _ _ w) as [[found|e] w1]; [|reflexivity].
  now destruct (VectorDb.contexts found).
Qed.

Lemma query_run_contexts (data : Main.QueryData) (w w1 : World St)
    (found : VectorDb.Found) :
  Main._search L (Main.question data) (default 5%Z (Main.top_k data)) w
    = (Ok found, w1) ->
  VectorDb.contexts found <> [] ->
  Main.rag_query_pdf_ai L data w =
    (ans ← Main.run_qa_async L
             (Main.user_content (VectorDb.contexts found) (Main.question data));
     mret (Main.mkQueryResult ans (VectorDb.sources found)
             (length (VectorDb.contexts found)))) w1.
Proof.
  intros Hs Hne. rewrite query_run, Hs.
  destruct (VectorDb.contexts found); [congruence | reflexivity].
Qed.

Lemma query_embeds_first (data : Main.QueryData) (w : World St) :
  exists evs,
    trace (Main.rag_query_pdf_ai L data w).2 =
      trace w ++ EncodeCall [Main.question data] :: evs.
Proof.
  rewrite query_run.
  destruct (_search_embeds_first (Main.question data)
              (default 5%Z (Main.top_k data)) w) as (evs & E).
  destruct (Main._search L _ _ w) as [[found|e] w1]; simpl in E;
    [|now exists evs].
  destruct (VectorDb.contexts found) as [|c cs]; [now exists evs|].
  cbv zeta. unfold mbind, M_bind.
  pose proof (run_qa_appends (Main.user_content (c :: cs) (Main.question data)) w1) as T.
  destruct (Main.run_qa_async L _ w1) as [[ans|e] w2]; simpl in *;
    eexists; rewrite T, E, <- app_assoc; reflexivity.
Qed.

End QueryJob.

(** C2. When the search step yields no contexts the query job returns
    the fixed result and stops there: the world is the one the search
    step left, and nothing the job appended to the trace is a call of the
    generator, whatever the generator would have answered. *)
Theorem no_contexts_skips_generation {St} (L : Libs St)
    (data : Main.QueryData) (w w1 : World St) (found : VectorDb.Found) :
  Main._search L (Main.question data) (default 5%Z (Main.top_k data)) w
    = (Ok found, w1) ->
  VectorDb.contexts found = [] ->
  Main.rag_query_pdf_ai L data w =
    (Ok (Main.mkQueryResult
           "No relevant information found in the documents." [] 0), w1)
  /\ exists evs, trace w1 = trace w ++ evs
                 /\ Forall (fun e => is_generate e = false) evs.
Proof.
  intros Hs Hc. split.
  - rewrite query_run, Hs, Hc. reflexivity.
  - destruct (_search_no_generate L (Main.question data)
                (default 5%Z (Main.top_k data)) w) as (evs & E & F).
    rewrite Hs in E. now exists evs.
Qed.

(** C9. With at least one context, the prompt handed to the generator is
    "Context:" and a line break, then one item "- " followed by the
    context for each context, in order, two line breaks between items,
    then two line breaks, "Question: " with the question, a line break
    and the instruction "Answer concisely using the context above."; the
    answer of the job is the generated text without its surrounding
    white space. *)
Theorem prompt_lists_contexts_answer_stripped {St} (L : Libs St)
    (data : Main.QueryData) (w w1 : World St) (found : VectorDb.Found)
    (out : pydict) (others : list pydict) (generated : string) :
  let cs := VectorDb.contexts found in
  let newline := String (ascii_of_nat 10) EmptyString in
  let prompt := Main.user_content cs (Main.question data) in
  Main._search L (Main.question data) (default 5%Z (Main.top_k data)) w
    = (Ok found, w1) ->
  cs <> [] ->
  qa_pipeline L prompt = Ok (out :: others) ->
  out !! "generated_text" = Some generated ->
  Main.rag_query_pdf_ai L data w =
    (Ok (Main.mkQueryResult (PyStr.strip generated)
           (VectorDb.sources found) (length cs)),
     mkWorld (server w1) (trace w1 ++ [GenerateCall prompt]))
  /\ (exists items : list string -> string,
        (forall c, items [c] = "- " +:+ c)
        /\ (forall c c' rest,
              items (c :: c' :: rest) =
                "- " +:+ c +:+ newline +:+ newline +:+ items (c' :: rest))
        /\ prompt =
             "Context:" +:+ newline +:+ items cs +:+ newline +:+ newline
             +:+ "Question: " +:+ Main.question data +:+ newline
             +:+ "Answer concisely using the context above.")
  /\ (exists l r, generated = l +:+ PyStr.strip generated +:+ r
                  /\ PyStr.all_chars PyStr.isspace l = true
                  /\ PyStr.all_chars PyStr.isspace r = true)
  /\ (forall c t, PyStr.strip generated = String c t -> PyStr.isspace c = false)
  /\ (forall t c, PyStr.strip generated = t +:+ String c "" ->
                  PyStr.isspace c = false).
Proof.
  intros cs newline prompt Hs Hne Hq Hg. split; [|split; [|apply strip_spec]].
  - subst cs. rewrite (query_run_contexts L data w w1 found Hs Hne).
    fold prompt.
    unfold Main.run_qa_async, mbind, M_bind, call_pure. rewrite Hq. simpl.
    rewrite Hg. reflexivity.
  - exists (fun l => PyStr.join (nl +:+ nl) (map Main.bullet l)).
    split; [reflexivity|]. split.
    + intros c c' rest. cbn [map PyStr.join]. unfold Main.bullet at 1.
      now rewrite !app_String_assoc.
    + unfold prompt, Main.user_content, Main.context_block.
      now rewrite !app_String_assoc.
Qed.

(** ** The limit of a search *)

(** C6, as the code has it.  [search] forwards [top_k] as the limit of
    one client call, whatever its sign, and returns what the client's
    answer determines; the query job embeds the question before it
    reaches the store. *)
Theorem search_forwards_any_top_k {St} (L : Libs St)
    (self : VectorDb.QdrantStorage) (q : vector) (k : Z) (w : World St)
    (data : Main.QueryData) :
  trace (VectorDb.search L self q k w).2 =
    trace w ++ [SearchCall (VectorDb.collection self) q k]
  /\ (VectorDb.search L self q k w).1 =
       match client_search L (VectorDb.collection self) q k (server w) with
       | Ok hits => Ok (VectorDb.gather hits)
       | Raise e => Raise e
       end
  /\ exists evs,
       trace (Main.rag_query_pdf_ai L data w).2 =
         trace w ++ EncodeCall [Main.question data] :: evs.
Proof.
  rewrite search_run. split; [reflexivity|]. split; [reflexivity|].
  apply query_embeds_first.
Qed.

(** ** The plain window *)

Lemma substring_empty (n m : nat) : substring n m "" = "".
Proof. now destruct n, m. Qed.

Lemma substring_length (s : string) (n m : nat) :
  String.length (substring n m s) = Nat.min m (String.length s - n).
Proof.
  revert n m. induction s as [|c s IH]; intros n m.
  - rewrite substring_empty. simpl. lia.
  - destruct n as [|n]; [destruct m as [|m]|]; simpl; rewrite ?IH; lia.
Qed.

Lemma substring_substring (s : string) (off m i k : nat) :
  i + k <= m -> substring i k (substring off m s) = substring (off + i) k s.
Proof.
  revert off m i k. induction s as [|c s IH]; intros off m i k H.
  - now rewrite !substring_empty.
  - destruct off as [|off]; simpl.
    + destruct m as [|m].
      * assert (i = 0) as -> by lia. assert (k = 0) as -> by lia. reflexivity.
      * destruct i as [|i]; simpl.
        -- destruct k as [|k]; [reflexivity|]. f_equal.
           now rewrite (IH 0 m 0 k) by lia.
        -- now rewrite (IH 0 m i k) by lia.
    + apply IH. exact H.
Qed.

(** The [i]-th window starts [i] strides after the first. *)
Lemma windows_lookup (fuel size stride off : nat) (s : string) (i : nat) (c : string) :
  Window.windows fuel size stride off s !! i = Some c ->
  c = substring (off + i * stride) size s.
Proof.
  revert off i. induction fuel as [|fuel IH]; intros off i; simpl; [discriminate|].
  destruct (off <? String.length s); [|discriminate].
  destruct i as [|i]; simpl.
  - intros [= <-]. f_equal. lia.
  - destruct (off + size <? String.length s); [|discriminate].
    intros H. apply IH in H. subst c. f_equal. lia.
Qed.

(** A window that is not the last one is full. *)
Lemma windows_full (fuel size stride off : nat) (s : string) (i : nat) (c : string) :
  Window.windows fuel size stride off s !! i = Some c ->
  S i < length (Window.windows fuel size stride off s) ->
  String.length c = size.
Proof.
  revert off i. induction fuel as [|fuel IH]; intros off i; simpl; [discriminate|].
  destruct (off <? String.length s); [|discriminate].
  destruct (off + size <? String.length s) eqn:Hnext.
  - destruct i as [|i]; simpl.
    + intros [= <-] _. apply Nat.ltb_lt in Hnext.
      rewrite substring_length. lia.
    + intros H Hlen. apply (IH _ _ H). lia.
  - destruct i as [|i]; simpl; [lia | discriminate].
Qed.

(** On one text the plain window has the shape of the chunk-coverage
    property: every chunk but the last is full, two neighbours share
    [overlap] characters, and blank text gives nothing. *)
Lemma window_split_shape (size overlap : nat) (s : string) :
  overlap < size ->
  let chunks := Window.window_split size overlap s in
  (forall i c, chunks !! i = Some c -> S i < length chunks ->
     String.length c = size)
  /\ (forall i a b, chunks !! i = Some a -> chunks !! S i = Some b ->
        substring (size - overlap) overlap a = substring 0 overlap b)
  /\ (PyStr.all_chars PyStr.isspace s = true -> chunks = []).
Proof.
  intros Hov chunks. unfold chunks, Window.window_split.
  destruct (PyStr.all_chars PyStr.isspace s); [repeat split; intros; discriminate|].
  split; [|split]; [| |discriminate].
  - intros i c. apply windows_full.
  - intros i a b Ha Hb.
    apply windows_lookup in Ha, Hb. subst a b.
    rewrite !substring_substring by lia. f_equal. simpl. lia.
Qed.

(** ** Running the monad backwards *)

Section Inversion.
Context {St : Type}.

Lemma bind_Ok {A B} (m : M St A) (f : A -> M St B) (w w' : World St) (b : B) :
  (m ≫= f) w = (Ok b, w') ->
  exists a w1, m w = (Ok a, w1) /\ f a w1 = (Ok b, w').
Proof.
  unfold mbind, M_bind. destruct (m w) as [[a|e] w1]; [|discriminate].
  intros H. now exists a, w1.
Qed.


Lemma lift_Ok {A} (r : result A) (a : A) (w w' : World St) :
  lift r w = (Ok a, w') -> r = Ok a /\ w' = w.
Proof. intros [= -> ->]. now split. Qed.

Lemma call_pure_Ok {A} (e : Event) (r : result A) (a : A) (w w' : World St) :
  call_pure e r w = (Ok a, w') ->
  r = Ok a /\ w' = mkWorld (server w) (trace w ++ [e]).
Proof. intros [= -> <-]. now split. Qed.

Lemma call_write_Ok (e : Event) (f : St -> result St) (u : unit)
    (w w' : World St) :
  call_write e f w = (Ok u, w') ->
  exists s', f (server w) = Ok s' /\ w' = mkWorld s' (trace w ++ [e]).
Proof.
  unfold call_write. destruct (f (server w)) as [s'|x]; [|discriminate].
  intros [= _ <-]. now exists s'.
Qed.

End Inversion.

(** ** Chunking *)

Section Chunking.
Context {St : Type} (L : Libs St).

Lemma extend_from (texts acc : list string) :
  fold_left (fun chunks t => chunks ++ split_text L t) texts acc =
    acc ++ concat (map (split_text L) texts).
Proof.
  revert acc. induction texts as [|t texts IH]; intros acc; simpl.
  - now rewrite app_nil_r.
  - rewrite IH. now rewrite <- app_assoc.
Qed.

Lemma extend_all_concat (texts : list string) :
  DataLoader.extend_all L texts = concat (map (split_text L) texts).
Proof. unfold DataLoader.extend_all. now rewrite extend_from. Qed.

Lemma page_texts_blank (docs : list Document) :
  Forall (fun d => doc_text d = None \/ doc_text d = Some "") docs ->
  DataLoader.page_texts docs = [].
Proof.
  unfold DataLoader.page_texts.
  induction 1 as [|d docs [E|E] _ IH]; simpl; [reflexivity| |];
    rewrite E; simpl; exact IH.
Qed.

Lemma load_run (path : string) (w : World St) :
  DataLoader.load_and_chunk_pdf L path w =
    (match load_data L path with
     | Ok docs => Ok (DataLoader.extend_all L (DataLoader.page_texts docs))
     | Raise e => Raise e
     end,
     mkWorld (server w) (trace w ++ [LoadPdfCall path])).
Proof.
  unfold DataLoader.load_and_chunk_pdf, mbind, M_bind, call_pure.
  now destruct (load_data L path).
Qed.

End Chunking.


(** ** The ingest job *)

Section IngestJob.
Context {St : Type} (L : Libs St).

Lemma upsert_Ok (self : VectorDb.QdrantStorage) (ids : list string)
    (vs : list vector) (ps : list pydict) (u : unit) (w w' : World St) :
  VectorDb.upsert L self ids vs ps w = (Ok u, w') ->
  exists points s',
    comprehension (VectorDb.point_at ids vs ps) (seq 0 (length ids)) = Ok points
    /\ client_upsert L (VectorDb.collection self) points (server w) = Ok s'
    /\ w' = mkWorld s' (trace w ++ [UpsertCall (VectorDb.collection self) points]).
Proof.
  unfold VectorDb.upsert. intros H.
  apply bind_Ok in H as (points & w1 & Hp & Hw).
  apply lift_Ok in Hp as [Hp ->].
  apply call_write_Ok in Hw as (s' & Hs & ->). now exists points, s'.
Qed.



End IngestJob.


(** * Further properties *)

(** ** List comprehensions, continued *)

Lemma comprehension_ext_in {A B} (f g : A -> result B) (l : list A) :
  (forall x, x ∈ l -> f x = g x) -> comprehension f l = comprehension g l.
Proof.
  induction l as [|x l IH]; intros H; simpl; [reflexivity|].
  rewrite (H x) by apply list_elem_of_here.
  rewrite IH; [reflexivity|]. intros y Hy. apply H. now apply list_elem_of_further.
Qed.

Lemma comprehension_app {A B} (f : A -> result B) (l1 l2 : list A) :
  comprehension f (l1 ++ l2) =
    match comprehension f l1 with
    | Raise e => Raise e
    | Ok ys =>
        match comprehension f l2 with
        | Raise e => Raise e
        | Ok zs => Ok (ys ++ zs)
        end
    end.
Proof.
  induction l1 as [|x l1 IH]; simpl.
  - now destruct (comprehension f l2).
  - destruct (f x); [|reflexivity]. rewrite IH.
    destruct (comprehension f l1); [|reflexivity].
    now destruct (comprehension f l2).
Qed.

(** A comprehension whose only exception is [e0] raises [e0] as soon as
    one element does. *)
Lemma comprehension_raises {A B} (f : A -> result B) (l : list A) (e0 : Exn) :
  (forall x e, f x = Raise e -> e = e0) ->
  (exists x, x ∈ l /\ f x = Raise e0) ->
  comprehension f l = Raise e0.
Proof.
  intros Honly. induction l as [|x l IH]; intros (y & Hy & Fy).
  - now apply elem_of_nil in Hy.
  - simpl. destruct (f x) as [b|e] eqn:Fx.
    + apply elem_of_cons in Hy as [->|Hy]; [congruence|].
      rewrite IH by now exists y. reflexivity.
    + now rewrite (Honly x e Fx).
Qed.

(** [[g(l[i]) for i in range(len(l))]] is [map g l]. *)
Lemma comprehension_by_index {A B} (g : A -> B) (e : Exn) (l : list A) :
  comprehension (fun i => match l !! i with
                          | Some x => Ok (g x)
                          | None => Raise e
                          end) (seq 0 (length l)) = Ok (map g l).
Proof.
  induction l as [|x l IH] using rev_ind; [reflexivity|].
  rewrite length_app, Nat.add_comm. simpl length. rewrite seq_S.
  rewrite comprehension_app. simpl.
  rewrite (comprehension_ext_in _
             (fun i => match l !! i with Some x => Ok (g x) | None => Raise e end)).
  - rewrite IH. rewrite lookup_app_r by lia. rewrite Nat.sub_diag. simpl.
    now rewrite map_app.
  - intros i Hi. apply list_elem_of_In, in_seq in Hi.
    rewrite lookup_app_l by lia. reflexivity.
Qed.

(** ** [upsert]: the lengths of its three lists *)

Lemma point_at_only_IndexError (ids : list string) (vs : list vector)
    (ps : list pydict) (i : nat) (e : Exn) :
  VectorDb.point_at ids vs ps i = Raise e -> e = IndexError.
Proof.
  unfold VectorDb.point_at.
  destruct (ids !! i); [|congruence].
  destruct (vs !! i); [|congruence].
  destruct (ps !! i); congruence.
Qed.

Lemma point_at_take (ids : list string) (vs : list vector) (ps : list pydict)
    (n i : nat) :
  i < n ->
  VectorDb.point_at ids (take n vs) (take n ps) i = VectorDb.point_at ids vs ps i.
Proof.
  intros Hi. unfold VectorDb.point_at. now rewrite !lookup_take_lt by assumption.
Qed.

Lemma upsert_short (St : Type) (L : Libs St)
    (self : VectorDb.QdrantStorage) (ids : list string) (vs : list vector)
    (ps : list pydict) (w : World St) :
  length vs < length ids \/ length ps < length ids ->
  VectorDb.upsert L self ids vs ps w = (Raise IndexError, w).
Proof.
  intros Hshort. unfold VectorDb.upsert, mbind, M_bind, lift.
  rewrite (comprehension_raises _ _ IndexError); [reflexivity| |].
  - intros i e. apply point_at_only_IndexError.
  - set (j := Nat.min (length vs) (length ps)).
    exists j. split.
    + apply list_elem_of_In, in_seq. lia.
    + unfold VectorDb.point_at.
      destruct (ids !! j) as [id|]; [|reflexivity].
      destruct (decide (length vs <= length ps)) as [Hle|Hgt].
      * rewrite (lookup_ge_None_2 vs j) by lia. reflexivity.
      * rewrite (lookup_ge_None_2 ps j) by lia. now destruct (vs !! j).
Qed.

Lemma comprehension_total {A B} (f : A -> result B) (l : list A) :
  (forall x, x ∈ l -> exists y, f x = Ok y) ->
  exists ys, comprehension f l = Ok ys.
Proof.
  induction l as [|x l IH]; intros H; simpl; [now exists []|].
  destruct (H x) as (y & Fy); [apply list_elem_of_here|]. rewrite Fy.
  destruct IH as (ys & E).
  { intros z Hz. apply H. now apply list_elem_of_further. }
  rewrite E. now exists (y :: ys).
Qed.

(** X1. When [vectors] or [payloads] is shorter than [ids], [upsert]
    raises [IndexError] while it builds the points: the client is not
    called and the world is as before.  The lengths decide alone:
    otherwise the points are built, one per identifier, and handed to
    the client in one call. *)
Theorem upsert_short_input_raises {St} (L : Libs St)
    (self : VectorDb.QdrantStorage) (ids : list string) (vs : list vector)
    (ps : list pydict) (w : World St) :
  (length vs < length ids \/ length ps < length ids ->
   VectorDb.upsert L self ids vs ps w = (Raise IndexError, w))
  /\ (length ids <= length vs -> length ids <= length ps ->
      exists points,
        length points = length ids
        /\ VectorDb.upsert L self ids vs ps w =
             call_write (UpsertCall (VectorDb.collection self) points)
               (client_upsert L (VectorDb.collection self) points) w).
Proof.
  split; [apply upsert_short|]. intros Hv Hp.
  destruct (comprehension_total (VectorDb.point_at ids vs ps)
              (seq 0 (length ids))) as (points & E).
  { intros i Hi. apply list_elem_of_In, in_seq in Hi.
    unfold VectorDb.point_at.
    destruct (lookup_lt_is_Some_2 ids i) as (id & ->); [lia|].
    destruct (lookup_lt_is_Some_2 vs i) as (v & ->); [lia|].
    destruct (lookup_lt_is_Some_2 ps i) as (p & ->); [lia|].
    now eexists. }
  exists points. split.
  - now apply points_lookup in E as [Hlen _].
  - now apply upsert_run.
Qed.

(** X2. [upsert] reads its lists only at the positions of [ids]: what
    lies beyond [len(ids)] in [vectors] and [payloads] is ignored. *)
Theorem upsert_ignores_surplus {St} (L : Libs St)
    (self : VectorDb.QdrantStorage) (ids : list string) (vs : list vector)
    (ps : list pydict) (w : World St) :
  VectorDb.upsert L self ids vs ps w =
  VectorDb.upsert L self ids (take (length ids) vs) (take (length ids) ps) w.
Proof.
  unfold VectorDb.upsert.
  rewrite (comprehension_ext_in
             (VectorDb.point_at ids vs ps)
             (VectorDb.point_at ids (take (length ids) vs) (take (length ids) ps)));
    [reflexivity|].
  intros i Hi. apply list_elem_of_In, in_seq in Hi.
  symmetry. apply point_at_take. lia.
Qed.

(** ** The ingest job, step by step *)

Section IngestRun.
Context {St : Type} (L : Libs St).

(** The payloads that [_upsert] builds for chunks [cs] of source [src]. *)
Lemma upsert_payloads (src : string) (cs : list string) :
  comprehension (fun i => match cs !! i with
                          | Some c => Ok (Main.payload_for src c)
                          | None => Raise IndexError
                          end) (seq 0 (length cs))
  = Ok (map (Main.payload_for src) cs).
Proof. apply comprehension_by_index. Qed.

Lemma _upsert_run (cs : list string) (src : string) (w : World St) :
  Main._upsert L (Main.mkChunkAndSrc cs src) w =
    let w1 := mkWorld (server w) (trace w ++ [EncodeCall cs]) in
    match encode L cs with
    | Raise e => (Raise e, w1)
    | Ok vecs =>
        match VectorDb.init L "docs" 384 w1 with
        | (Raise e, w2) => (Raise e, w2)
        | (Ok store, w2) =>
            match VectorDb.upsert L store
                    (map (Keyer.derive_id (uuid5 L) src) (seq 0 (length cs)))
                    vecs (map (Main.payload_for src) cs) w2 with
            | (Ok _, w3) => (Ok (Main.mkUpsertResult (length cs)), w3)
            | (Raise e, w3) => (Raise e, w3)
            end
        end
    end.
Proof.
  unfold Main._upsert, Main.embed_texts_async. simpl.
  unfold mbind at 1. unfold M_bind at 1. unfold call_pure.
  destruct (encode L cs) as [vecs|e]; [|reflexivity].
  rewrite upsert_payloads. unfold mbind at 1. unfold M_bind at 1. unfold lift.
  unfold mbind at 1. unfold M_bind at 1.
  unfold Main.default_collection, Main.default_dim.
  destruct (VectorDb.init L "docs" 384 _) as [[store|e] w2]; [|reflexivity].
  unfold mbind at 1. unfold M_bind at 1.
  now destruct (VectorDb.upsert L store _ vecs _ w2) as [[u|e] w3].
Qed.

Lemma ingest_run (data : Main.IngestData) (w : World St) :
  Main.rag_ingest_pdf L data w =
    let w0 := mkWorld (server w) (trace w ++ [LoadPdfCall (Main.pdf_path data)]) in
    match load_data L (Main.pdf_path data) with
    | Raise e => (Raise e, w0)
    | Ok docs =>
        Main._upsert L
          (Main.mkChunkAndSrc
             (DataLoader.extend_all L (DataLoader.page_texts docs))
             (default (Main.pdf_path data) (Main.source_id data))) w0
    end.
Proof.
  unfold Main.rag_ingest_pdf, Main.step_run, Main._load.
  unfold mbind at 1. unfold M_bind at 1.
  unfold mbind at 1. unfold M_bind at 1.
  rewrite load_run.
  now destruct (load_data L (Main.pdf_path data)).
Qed.

(** What a successful ingest went through. *)
Lemma ingest_Ok_batch (data : Main.IngestData) (w w' : World St)
    (res : Main.RAGUpsertResult) :
  Main.rag_ingest_pdf L data w = (Ok res, w') ->
  exists docs vecs points,
    let cs := DataLoader.extend_all L (DataLoader.page_texts docs) in
    let src := default (Main.pdf_path data) (Main.source_id data) in
    let ids := map (Keyer.derive_id (uuid5 L) src) (seq 0 (length cs)) in
    load_data L (Main.pdf_path data) = Ok docs
    /\ encode L cs = Ok vecs
    /\ comprehension
         (VectorDb.point_at ids vecs (map (Main.payload_for src) cs))
         (seq 0 (length ids)) = Ok points
    /\ last (trace w') = Some (UpsertCall "docs" points)
    /\ res = Main.mkUpsertResult (length cs).
Proof.
  rewrite ingest_run. cbv zeta.
  destruct (load_data L (Main.pdf_path data)) as [docs|e]; [|discriminate].
  rewrite _upsert_run. cbv zeta.
  set (cs := DataLoader.extend_all L (DataLoader.page_texts docs)).
  set (src := default (Main.pdf_path data) (Main.source_id data)).
  destruct (encode L cs) as [vecs|e] eqn:Henc; [|discriminate].
  destruct (VectorDb.init L "docs" 384 _) as [[store|e] w2] eqn:Hinit;
    [|discriminate].
  apply init_ok in Hinit as [-> _].
  destruct (VectorDb.upsert L _ _ vecs _ w2) as [[u|e] w3] eqn:Hup;
    [|discriminate].
  intros [= <- <-].
  apply upsert_Ok in Hup as (points & s' & Hpts & _ & ->).
  exists docs, vecs, points. cbv zeta. fold cs src.
  repeat split; try assumption; try reflexivity.
  cbn [trace]. now rewrite last_snoc.
Qed.

End IngestRun.

(** X3. The ingest job stops at the first library that fails: when the
    PDF cannot be read only the reader was called, and when the embedding
    fails the store has not been contacted; the job raises that
    library's exception. *)
Theorem ingest_stops_at_first_failure {St} (L : Libs St)
    (data : Main.IngestData) (w : World St) :
  (forall e, load_data L (Main.pdf_path data) = Raise e ->
     Main.rag_ingest_pdf L data w =
       (Raise e,
        mkWorld (server w) (trace w ++ [LoadPdfCall (Main.pdf_path data)])))
  /\ (forall docs e,
        load_data L (Main.pdf_path data) = Ok docs ->
        encode L (DataLoader.extend_all L (DataLoader.page_texts docs)) = Raise e ->
        Main.rag_ingest_pdf L data w =
          (Raise e,
           mkWorld (server w)
             (trace w ++ [LoadPdfCall (Main.pdf_path data);
                          EncodeCall (DataLoader.extend_all L
                                        (DataLoader.page_texts docs))]))).
Proof.
  split.
  - intros e He. rewrite ingest_run, He. reflexivity.
  - intros docs e Hd He. rewrite ingest_run, Hd. cbv zeta.
    rewrite _upsert_run, He. cbv zeta. simpl. now rewrite <- app_assoc.
Qed.

(** X4. When the embedding returns fewer vectors than there are chunks,
    the ingest job fails without sending any point to the store; the
    failure is [IndexError] whenever the wrapper could be built. *)
Theorem ingest_short_embedding_upserts_nothing {St} (L : Libs St)
    (data : Main.IngestData) (w : World St) (docs : list Document)
    (vecs : list vector) :
  let cs := DataLoader.extend_all L (DataLoader.page_texts docs) in
  let w1 := mkWorld (server w)
              (trace w ++ [LoadPdfCall (Main.pdf_path data); EncodeCall cs]) in
  load_data L (Main.pdf_path data) = Ok docs ->
  encode L cs = Ok vecs ->
  length vecs < length cs ->
  exists e evs,
    (Main.rag_ingest_pdf L data w).1 = Raise e
    /\ trace (Main.rag_ingest_pdf L data w).2 = trace w ++ evs
    /\ Forall (fun ev => is_upsert ev = false) evs
    /\ (forall store w2, VectorDb.init L "docs" 384 w1 = (Ok store, w2) ->
          e = IndexError).
Proof.
  intros cs w1 Hd He Hlen. rewrite ingest_run, Hd. cbv zeta.
  rewrite _upsert_run. fold cs. rewrite He. cbv zeta. simpl.
  rewrite <- app_assoc. simpl. fold w1.
  destruct (init_adds L (fun ev => is_upsert ev = false) "docs" 384
              eq_refl eq_refl w1) as (evs & E & F).
  destruct (VectorDb.init L "docs" 384 w1) as [[store|e] w2] eqn:Hinit;
    simpl in E.
  - rewrite upsert_short
      by (left; now rewrite length_map, length_seq).
    exists IndexError, ([LoadPdfCall (Main.pdf_path data); EncodeCall cs] ++ evs).
    simpl. split; [reflexivity|]. split.
    + rewrite E. unfold w1. simpl. now rewrite <- app_assoc.
    + split; [now repeat constructor|]. reflexivity.
  - exists e, ([LoadPdfCall (Main.pdf_path data); EncodeCall cs] ++ evs).
    simpl. split; [reflexivity|]. split.
    + rewrite E. unfold w1. simpl. now rewrite <- app_assoc.
    + split; [now repeat constructor|]. discriminate.
Qed.

(** ** The batch of a successful ingest *)

Lemma points_ids (ids : list string) (vs : list vector) (ps : list pydict)
    (points : list PointStruct) :
  comprehension (VectorDb.point_at ids vs ps) (seq 0 (length ids)) = Ok points ->
  map point_id points = ids.
Proof.
  intros H. apply points_lookup in H as [Hlen Hat].
  apply list_eq. intros i. rewrite list_lookup_fmap.
  destruct (decide (i < length ids)) as [Hi|Hi].
  - destruct (Hat i Hi) as (id & v & p & Hid & _ & _ & Hp).
    now rewrite Hp, Hid.
  - rewrite (lookup_ge_None_2 points i) by lia.
    now rewrite (lookup_ge_None_2 ids i) by lia.
Qed.

Lemma points_payloads (ids : list string) (vs : list vector) (ps : list pydict)
    (points : list PointStruct) :
  length ps = length ids ->
  comprehension (VectorDb.point_at ids vs ps) (seq 0 (length ids)) = Ok points ->
  map point_payload points = ps.
Proof.
  intros Hps H. apply points_lookup in H as [Hlen Hat].
  apply list_eq. intros i. rewrite list_lookup_fmap.
  destruct (decide (i < length ids)) as [Hi|Hi].
  - destruct (Hat i Hi) as (id & v & p & _ & _ & Hp & Hpt).
    now rewrite Hpt, Hp.
  - rewrite (lookup_ge_None_2 points i) by lia.
    now rewrite (lookup_ge_None_2 ps i) by lia.
Qed.

Lemma extend_all_ext {St} (L1 L2 : Libs St) (texts : list string) :
  (forall t, split_text L1 t = split_text L2 t) ->
  DataLoader.extend_all L1 texts = DataLoader.extend_all L2 texts.
Proof.
  intros H. rewrite !extend_all_concat. f_equal. apply map_ext. intros t. apply H.
Qed.

(** X5. Re-ingestion sends the same batch when the file has not
    changed.  Take two runs of one event, each with its own reader and
    store client and from its own state of the store.  If the reader
    returns the same pages in both, and splitter, embedding model and
    [uuid5] are the same, then two successful runs end with the same
    upsert of the same points and return the same count. *)
Theorem reingest_sends_same_batch {St} (L1 L2 : Libs St)
    (data : Main.IngestData) (w1 w2 w1' w2' : World St)
    (r1 r2 : Main.RAGUpsertResult) :
  load_data L1 (Main.pdf_path data) = load_data L2 (Main.pdf_path data) ->
  (forall t, split_text L1 t = split_text L2 t) ->
  (forall texts, encode L1 texts = encode L2 texts) ->
  (forall name, uuid5 L1 name = uuid5 L2 name) ->
  Main.rag_ingest_pdf L1 data w1 = (Ok r1, w1') ->
  Main.rag_ingest_pdf L2 data w2 = (Ok r2, w2') ->
  r1 = r2
  /\ exists points,
       last (trace w1') = Some (UpsertCall "docs" points)
       /\ last (trace w2') = Some (UpsertCall "docs" points).
Proof.
  intros Hload Hsplit Henc Huuid H1 H2.
  apply ingest_Ok_batch in H1 as (d1 & v1 & p1 & Hd1 & He1 & Hp1 & Hl1 & ->).
  apply ingest_Ok_batch in H2 as (d2 & v2 & p2 & Hd2 & He2 & Hp2 & Hl2 & ->).
  cbv zeta in *.
  rewrite Hload, Hd2 in Hd1. injection Hd1 as <-.
  rewrite (extend_all_ext L1 L2 _ Hsplit) in He1, Hp1 |- *.
  rewrite Henc, He2 in He1. injection He1 as <-.
  assert (map (Keyer.derive_id (uuid5 L1)
                 (default (Main.pdf_path data) (Main.source_id data)))
              (seq 0 (length (DataLoader.extend_all L2 (DataLoader.page_texts d2))))
          = map (Keyer.derive_id (uuid5 L2)
                   (default (Main.pdf_path data) (Main.source_id data)))
              (seq 0 (length (DataLoader.extend_all L2 (DataLoader.page_texts d2)))))
    as Hids.
  { apply map_ext. intros i. unfold Keyer.derive_id. apply Huuid. }
  rewrite Hids in Hp1. rewrite Hp2 in Hp1. injection Hp1 as <-.
  split; [reflexivity|]. now exists p2.
Qed.

(** X6. With a collision-free [uuid5] the points of a successful ingest
    have pairwise distinct identifiers: no chunk of the batch overwrites
    another. *)
Theorem ingest_ids_distinct {St} (L : Libs St) (data : Main.IngestData)
    (w w' : World St) (res : Main.RAGUpsertResult) :
  ~ Keyer.collision (uuid5 L) ->
  Main.rag_ingest_pdf L data w = (Ok res, w') ->
  exists points,
    last (trace w') = Some (UpsertCall "docs" points)
    /\ length points = Main.ingested res
    /\ NoDup (map point_id points).
Proof.
  intros Hnc H.
  apply ingest_Ok_batch in H as (docs & vecs & points & _ & _ & Hp & Hl & ->).
  exists points. cbv zeta in Hp. split; [assumption|]. split.
  - apply points_lookup in Hp as [Hlen _].
    rewrite Hlen, length_map, length_seq. reflexivity.
  - rewrite (points_ids _ _ _ _ Hp). now apply derive_ids_NoDup.
Qed.

(** ** What ingestion writes, search reads *)

Lemma text_of_payload_for (id : string) (score : Q) (src c : string) :
  VectorDb.text_of (mkHit id score (Some (Main.payload_for src c))) = c.
Proof.
  unfold VectorDb.text_of, VectorDb.payload_of, Main.payload_for. simpl.
  rewrite lookup_insert_ne by discriminate. now rewrite lookup_insert_eq.
Qed.

Lemma source_of_payload_for (id : string) (score : Q) (src c : string) :
  VectorDb.source_of (mkHit id score (Some (Main.payload_for src c))) = src.
Proof.
  unfold VectorDb.source_of, VectorDb.payload_of, Main.payload_for. simpl.
  now rewrite lookup_insert_eq.
Qed.

Lemma list_to_set_const (src : string) (l : list string) :
  (list_to_set (map (fun _ => src) l) : gset string) =
    if decide (l = []) then ∅ else {[src]}.
Proof.
  induction l as [|x l IH]; [reflexivity|]. simpl. rewrite IH.
  destruct (decide (l = [])).
  - apply (right_id_L ∅ (∪)).
  - apply (idemp_L (∪)).
Qed.

Lemma Forall2_of_map_eq {A B C} (f : A -> C) (g : B -> C)
    (l : list A) (k : list B) :
  map f l = map g k -> Forall2 (fun b a => f a = g b) k l.
Proof.
  revert k. induction l as [|a l IH]; intros [|b k] E; try discriminate.
  - constructor.
  - injection E as E1 E2. constructor; [assumption | now apply IH].
Qed.

Lemma kept_of_payloads (src : string) (cs : list string) (hs : list ScoredPoint) :
  Forall2 (fun c h => hit_payload h = Some (Main.payload_for src c)) cs hs ->
  map VectorDb.text_of (kept hs) = filter (fun c => c <> "") cs
  /\ map VectorDb.source_of (kept hs) =
       map (fun _ => src) (filter (fun c => c <> "") cs).
Proof.
  unfold kept. induction 1 as [|c h cs hs Hh _ [IHt IHs]]; [now split|].
  destruct h as [id score pl]. simpl in Hh. subst pl.
  rewrite !filter_cons, text_of_payload_for.
  destruct (decide (c <> "")); simpl.
  - now rewrite text_of_payload_for, source_of_payload_for, IHt, IHs.
  - now split.
Qed.

Lemma gather_of_payloads (src : string) (cs : list string) (hs : list ScoredPoint) :
  Forall2 (fun c h => hit_payload h = Some (Main.payload_for src c)) cs hs ->
  VectorDb.gather hs =
    VectorDb.mkFound (filter (fun c => c <> "") cs)
      (if decide (filter (fun c => c <> "") cs = []) then [] else [src]).
Proof.
  intros H. apply kept_of_payloads in H as [Ht Hs].
  pose proof (gather_contexts hs) as Hc. pose proof (gather_sources hs) as Hso.
  destruct (VectorDb.gather hs) as [ctx srcs]. simpl in *. subst ctx srcs.
  rewrite Ht, Hs, list_to_set_const. f_equal.
  destruct (decide (filter (fun c => c <> "") cs = [])).
  - apply elements_empty.
  - apply elements_singleton.
Qed.

Lemma payloads_of_indices (src : string) (cs : list string)
    (points : list PointStruct) (idx : list nat) (hits : list ScoredPoint) :
  map point_payload points = map (Main.payload_for src) cs ->
  Forall2 (fun i h => exists p score,
             points !! i = Some p /\ h = hit_of_point score p) idx hits ->
  exists texts,
    Forall2 (fun i c => cs !! i = Some c) idx texts
    /\ Forall2 (fun c h => hit_payload h = Some (Main.payload_for src c))
         texts hits.
Proof.
  intros Hp. induction 1 as [|i h idx hits (p & score & Hi & ->) _ (texts & Ht & Fh)].
  - exists []. split; constructor.
  - assert (map point_payload points !! i = Some (point_payload p)) as Hpl
      by (rewrite list_lookup_fmap, Hi; reflexivity).
    rewrite Hp, list_lookup_fmap in Hpl.
    destruct (cs !! i) as [c|] eqn:Hc; [|discriminate].
    injection Hpl as Hpl.
    exists (c :: texts). split; [now constructor|].
    constructor; [|assumption]. simpl. now rewrite Hpl.
Qed.

(** X7. What ingestion writes, search reads back.  Let the hits of a
    search be points of a successful ingest, any of them, in any order,
    with any scores: hit number [k] carries the point stored at position
    [idx[k]] of the batch.  Then the loop of [search] returns, in hit
    order, the texts of the chunks at the positions [idx], the empty ones
    left out, and as sources the one source of the ingest; a chunk that is
    the empty string is stored but never returned. *)
Theorem search_reads_back_ingested_chunks {St} (L : Libs St)
    (data : Main.IngestData) (w w' : World St) (res : Main.RAGUpsertResult)
    (score : PointStruct -> Q) :
  Main.rag_ingest_pdf L data w = (Ok res, w') ->
  exists docs points,
    let cs := DataLoader.extend_all L (DataLoader.page_texts docs) in
    let src := default (Main.pdf_path data) (Main.source_id data) in
    load_data L (Main.pdf_path data) = Ok docs
    /\ last (trace w') = Some (UpsertCall "docs" points)
    /\ length points = length cs
    /\ VectorDb.gather (map (fun p => hit_of_point (score p) p) points) =
         VectorDb.mkFound (filter (fun c => c <> "") cs)
           (if decide (filter (fun c => c <> "") cs = []) then [] else [src])
    /\ forall (idx : list nat) (hits : list ScoredPoint),
         Forall2 (fun i h => exists p sc,
                    points !! i = Some p /\ h = hit_of_point sc p) idx hits ->
         exists texts,
           Forall2 (fun i c => cs !! i = Some c) idx texts
           /\ VectorDb.gather hits =
                VectorDb.mkFound (filter (fun c => c <> "") texts)
                  (if decide (filter (fun c => c <> "") texts = [])
                   then [] else [src]).
Proof.
  intros H.
  apply ingest_Ok_batch in H as (docs & vecs & points & Hd & _ & Hp & Hl & _).
  exists docs, points. cbv zeta. split; [assumption|]. split; [assumption|].
  cbv zeta in Hp.
  set (cs := DataLoader.extend_all L (DataLoader.page_texts docs)) in *.
  set (src := default (Main.pdf_path data) (Main.source_id data)) in *.
  pose proof (points_lookup _ _ _ _ Hp) as [Hlen _].
  rewrite length_map, length_seq in Hlen.
  apply points_payloads in Hp;
    [|now rewrite !length_map, length_seq].
  split; [exact Hlen|]. split.
  - apply gather_of_payloads. apply Forall2_fmap_r.
    eapply Forall2_impl; [exact (Forall2_of_map_eq _ _ _ _ Hp)|].
    intros c p E. simpl. now f_equal.
  - intros idx hits Hsel.
    destruct (payloads_of_indices src cs points idx hits Hp Hsel)
      as (texts & Ht & F).
    exists texts. split; [assumption|]. now apply gather_of_payloads.
Qed.

(** ** The query job, step by step *)

Section QueryRun.
Context {St : Type} (L : Libs St).

Lemma adds_at_of_adds {A} (P : Event -> Prop) (m : M St A) (w : World St) :
  adds P m -> adds_at w P m.
Proof. intros H. exact (H w). Qed.

Lemma adds_at_bind {A B} (P : Event -> Prop) (m : M St A) (f : A -> M St B)
    (w : World St) :
  adds_at w P m ->
  (forall a w1, m w = (Ok a, w1) -> adds_at w1 P (f a)) ->
  adds_at w P (m ≫= f).
Proof.
  intros (e1 & E1 & F1) Hf. unfold adds_at, mbind, M_bind.
  destruct (m w) as [[a|x] w1] eqn:Hm; simpl in *.
  - destruct (Hf a w1 eq_refl) as (e2 & E2 & F2). exists (e1 ++ e2). split.
    + rewrite E2, E1. now rewrite app_assoc.
    + now apply Forall_app.
  - now exists e1.
Qed.

Lemma _search_run (q : string) (k : Z) (w : World St) :
  Main._search L q k w =
    let w1 := mkWorld (server w) (trace w ++ [EncodeCall [q]]) in
    match encode L [q] with
    | Raise e => (Raise e, w1)
    | Ok [] => (Raise IndexError, w1)
    | Ok (v :: _) =>
        match VectorDb.init L "docs" 384 w1 with
        | (Raise e, w2) => (Raise e, w2)
        | (Ok store, w2) =>
            VectorDb.search L store v k
              (mkWorld (server w2)
                 (trace w2 ++ [GetCollectionCall (VectorDb.collection store)]))
        end
    end.
Proof.
  unfold Main._search, Main.embed_texts_async.
  unfold mbind at 1. unfold M_bind at 1. unfold call_pure.
  destruct (encode L [q]) as [[|v vs]|e]; reflexivity.
Qed.

(** The contexts and sources of a successful search step are those of
    the loop over some list of hits. *)
Lemma _search_Ok (q : string) (k : Z) (w w1 : World St) (found : VectorDb.Found) :
  Main._search L q k w = (Ok found, w1) ->
  exists hits, found = VectorDb.gather hits.
Proof.
  rewrite _search_run. cbv zeta.
  destruct (encode L [q]) as [[|v vs]|e]; try discriminate.
  destruct (VectorDb.init L "docs" 384 _) as [[store|e] w2]; [|discriminate].
  rewrite search_run.
  destruct (client_search L _ v k _) as [hits|e]; [|discriminate].
  intros [= <- _]. now exists hits.
Qed.

(** The constructor's events, by what the existence check answers. *)
Lemma init_adds_at (P : Event -> Prop) (name : string) (d : nat) (w : World St) :
  P (CollectionExistsCall name) ->
  (collection_exists L name (server w) = Ok false ->
   P (CreateCollectionCall name d)) ->
  adds_at w P (VectorDb.init L name d).
Proof.
  intros He Hc. unfold adds_at, VectorDb.init, mbind, M_bind, call_read, call_write.
  simpl. destruct (collection_exists L name (server w)) as [[|]|x]; simpl.
  - exists [CollectionExistsCall name]. split; [reflexivity | now repeat constructor].
  - exists [CollectionExistsCall name; CreateCollectionCall name d].
    split; [|repeat constructor; auto].
    destruct (create_collection L name d (server w)); simpl;
      now rewrite <- app_assoc.
  - exists [CollectionExistsCall name]. split; [reflexivity | now repeat constructor].
Qed.

(** The events of the query job satisfy [P] when every call a query can
    make does, the creation of the collection being one of them only
    when the existence check answers no. *)
Lemma query_adds_at (P : Event -> Prop) (data : Main.QueryData) (w : World St) :
  (forall e, is_write e = false -> P e) ->
  (collection_exists L "docs" (server w) = Ok false ->
   P (CreateCollectionCall "docs" 384)) ->
  adds_at w P (Main.rag_query_pdf_ai L data).
Proof.
  intros HP Hc. unfold Main.rag_query_pdf_ai, Main.step_run.
  apply adds_at_bind.
  - unfold Main._search, Main.embed_texts_async.
    apply adds_at_bind.
    + apply adds_at_of_adds, adds_call_pure. now apply HP.
    + intros vecs w1 Hw1. apply call_pure_Ok in Hw1 as [_ ->].
      destruct vecs as [|v vs]; [apply adds_at_of_adds, adds_raise|].
      apply adds_at_bind.
      * apply init_adds_at; [now apply HP | exact Hc].
      * intros store w2 _. apply adds_at_of_adds.
        apply adds_bind; [apply adds_try_except, adds_call_read; now apply HP|].
        intros _. unfold VectorDb.search.
        apply adds_bind; [apply adds_call_read; now apply HP|].
        intros; apply adds_ret.
  - intros found w1 _. apply adds_at_of_adds.
    destruct (VectorDb.contexts found); [apply adds_ret|].
    apply adds_bind; [|intros; apply adds_ret].
    unfold Main.run_qa_async.
    apply adds_bind; [apply adds_call_pure; now apply HP|].
    intros [|o os]; [apply adds_raise|].
    destruct (o !! "generated_text"); [apply adds_ret | apply adds_raise].
Qed.

End QueryRun.

(** X8. The collection statistics of the search step are for the log
    only: the query job gives the same result and the same trace whatever
    [get_collection] returns or raises. *)
Theorem query_ignores_collection_info {St} (L : Libs St)
    (g : string -> St -> result nat) (data : Main.QueryData) (w : World St) :
  Main.rag_query_pdf_ai (with_get_collection g L) data w =
  Main.rag_query_pdf_ai L data w.
Proof.
  rewrite !query_run, !_search_run. cbv zeta.
  change (encode (with_get_collection g L)) with (encode L).
  destruct (encode L [Main.question data]) as [[|v vs]|e]; reflexivity.
Qed.

(** X9. When the embedding of the question fails or comes back empty,
    the query job fails, with the model's exception or with [IndexError],
    and the store has not been contacted. *)
Theorem query_fails_before_store_without_embedding {St} (L : Libs St)
    (data : Main.QueryData) (w : World St) :
  let w1 := mkWorld (server w) (trace w ++ [EncodeCall [Main.question data]]) in
  (forall e, encode L [Main.question data] = Raise e ->
     Main.rag_query_pdf_ai L data w = (Raise e, w1))
  /\ (encode L [Main.question data] = Ok [] ->
      Main.rag_query_pdf_ai L data w = (Raise IndexError, w1)).
Proof.
  intros w1. split.
  - intros e He. rewrite query_run, _search_run, He. reflexivity.
  - intros He. rewrite query_run, _search_run, He. reflexivity.
Qed.

(** X10. A query against a store without the collection creates it, with
    size 384, before it searches: the search step asks for the
    existence, creates, asks for the statistics and searches the new
    state. *)
Theorem query_creates_missing_collection {St} (L : Libs St)
    (q : string) (k : Z) (w : World St) (v : vector) (vs : list vector)
    (s' : St) :
  encode L [q] = Ok (v :: vs) ->
  collection_exists L "docs" (server w) = Ok false ->
  create_collection L "docs" 384 (server w) = Ok s' ->
  Main._search L q k w =
    (match client_search L "docs" v k s' with
     | Ok hits => Ok (VectorDb.gather hits)
     | Raise e => Raise e
     end,
     mkWorld s'
       (trace w ++ [EncodeCall [q]; CollectionExistsCall "docs";
                    CreateCollectionCall "docs" 384;
                    GetCollectionCall "docs"; SearchCall "docs" v k])).
Proof.
  intros He Hx Hc. rewrite _search_run, He. cbv zeta.
  rewrite (init_absent L "docs" 384
             (mkWorld (server w) (trace w ++ [EncodeCall [q]])) s' Hx Hc).
  rewrite search_run. simpl. now rewrite <- !app_assoc.
Qed.

(** X11. Once contexts were found the job has no fallback: when the
    generator raises, returns no result or returns a result without
    ["generated_text"], the job raises (the generator's exception,
    [IndexError], [KeyError]) after the one generator call. *)
Theorem query_generation_failure_propagates {St} (L : Libs St)
    (data : Main.QueryData) (w w1 : World St) (found : VectorDb.Found) :
  let prompt := Main.user_content (VectorDb.contexts found) (Main.question data) in
  let w2 := mkWorld (server w1) (trace w1 ++ [GenerateCall prompt]) in
  Main._search L (Main.question data) (default 5%Z (Main.top_k data)) w
    = (Ok found, w1) ->
  VectorDb.contexts found <> [] ->
  (forall e, qa_pipeline L prompt = Raise e ->
     Main.rag_query_pdf_ai L data w = (Raise e, w2))
  /\ (qa_pipeline L prompt = Ok [] ->
      Main.rag_query_pdf_ai L data w = (Raise IndexError, w2))
  /\ (forall out others,
        qa_pipeline L prompt = Ok (out :: others) ->
        out !! "generated_text" = None ->
        Main.rag_query_pdf_ai L data w = (Raise (KeyError "generated_text"), w2)).
Proof.
  intros prompt w2 Hs Hne.
  rewrite (query_run_contexts L data w w1 found Hs Hne). fold prompt.
  unfold Main.run_qa_async, mbind, M_bind, call_pure.
  split; [|split].
  - intros e He. now rewrite He.
  - intros He. now rewrite He.
  - intros out others He Hk. rewrite He. simpl. now rewrite Hk.
Qed.

(** ** What a query returns and what it never does *)

Lemma run_qa_Ok {St} (L : Libs St) (prompt ans : string) (w w' : World St) :
  Main.run_qa_async L prompt w = (Ok ans, w') ->
  exists generated, ans = PyStr.strip generated.
Proof.
  unfold Main.run_qa_async, mbind, M_bind, call_pure.
  destruct (qa_pipeline L prompt) as [[|o os]|e]; simpl; try discriminate.
  destruct (o !! "generated_text") as [g|]; [|discriminate].
  intros [= <- _]. now exists g.
Qed.

Lemma gather_sources_nonempty (hits : list ScoredPoint) :
  VectorDb.contexts (VectorDb.gather hits) <> [] ->
  VectorDb.sources (VectorDb.gather hits) <> [].
Proof.
  rewrite gather_contexts, gather_sources. intros Hne Hnil.
  destruct (kept hits) as [|h hs]; [now apply Hne|].
  apply elements_empty_inv in Hnil.
  assert (VectorDb.source_of h ∈ (list_to_set (map VectorDb.source_of (h :: hs)) : gset string)) as Hin.
  { apply elem_of_list_to_set. simpl. apply list_elem_of_here. }
  rewrite Hnil in Hin. now apply elem_of_empty in Hin.
Qed.

(** X12. Every result of a successful query job is well formed: its
    sources are pairwise distinct and no more than its contexts, it names
    a source as soon as it counts a context, zero contexts means the
    fixed "no information" result, and its answer neither begins nor
    ends with white space. *)
Theorem query_result_well_formed {St} (L : Libs St) (data : Main.QueryData)
    (w w' : World St) (r : Main.QueryResult) :
  Main.rag_query_pdf_ai L data w = (Ok r, w') ->
  NoDup (Main.answer_sources r)
  /\ length (Main.answer_sources r) <= Main.num_contexts r
  /\ (0 < Main.num_contexts r -> Main.answer_sources r <> [])
  /\ (Main.num_contexts r = 0 -> r = Main.no_contexts_result)
  /\ (forall c t, Main.answer r = String c t -> PyStr.isspace c = false)
  /\ (forall t c, Main.answer r = t +:+ String c "" -> PyStr.isspace c = false).
Proof.
  rewrite query_run.
  destruct (Main._search L _ _ w) as [[found|e] w1] eqn:Hs; [|discriminate].
  apply _search_Ok in Hs as (hits & ->).
  destruct (VectorDb.contexts (VectorDb.gather hits)) as [|c cs] eqn:Hc.
  - intros [= <- _]. simpl. split; [constructor|]. split; [lia|].
    split; [lia|]. split; [reflexivity|]. split.
    + intros a t [= <- _]. reflexivity.
    + intros t a E. apply (rstrip_last (Main.answer Main.no_contexts_result) t a).
      rewrite <- E. reflexivity.
  - cbv zeta. unfold mbind, M_bind.
    destruct (Main.run_qa_async L _ w1) as [[ans|e] w2] eqn:Hq; [|discriminate].
    apply run_qa_Ok in Hq as (g & ->). intros [= <- _].
    cbn [Main.answer_sources Main.num_contexts Main.answer length].
    change (elements (fold_left VectorDb.visit hits ([], ∅)).2)
      with (VectorDb.sources (VectorDb.gather hits)).
    assert (VectorDb.contexts (VectorDb.gather hits) <> []) as Hne
      by (rewrite Hc; discriminate).
    split; [rewrite gather_sources; apply NoDup_elements|]. split.
    { change (S (length cs)) with (length (c :: cs)). rewrite <- Hc.
      rewrite gather_sources, gather_contexts, length_map.
      etransitivity; [apply elements_of_list_length|]. now rewrite length_map. }
    split; [intros _; now apply gather_sources_nonempty|].
    split; [discriminate|]. apply strip_spec.
Qed.

(** X13. A query never sends points to the store, and it asks for the
    creation of the collection only when the existence check answers
    that there is none. *)
Theorem query_never_upserts {St} (L : Libs St) (data : Main.QueryData)
    (w : World St) :
  exists evs,
    trace (Main.rag_query_pdf_ai L data w).2 = trace w ++ evs
    /\ Forall (fun e => is_upsert e = false) evs
    /\ (collection_exists L "docs" (server w) <> Ok false ->
        Forall (fun e => is_write e = false) evs).
Proof.
  destruct (query_adds_at L (fun e => is_upsert e = false) data w)
    as (evs & E & F).
  { intros [] H; try reflexivity; discriminate. }
  { reflexivity. }
  exists evs. split; [assumption|]. split; [assumption|]. intros Hx.
  destruct (query_adds_at L (fun e => is_write e = false) data w)
    as (evs' & E' & F').
  { auto. }
  { intros H. now destruct Hx. }
  rewrite E in E'. apply app_inv_head in E'. now subst evs'.
Qed.

(** ** The health endpoint *)

Lemma health_run {St} (L : Libs St) (now : string) (w : World St) :
  Main.health_check L now w =
    match VectorDb.init L "docs" 384 w with
    | (Raise e, w1) => (Ok (Main.Unhealthy e now), w1)
    | (Ok _, w1) =>
        let w2 := mkWorld (server w1) (trace w1 ++ [GetCollectionCall "docs"]) in
        match get_collection L "docs" (server w1) with
        | Ok n => (Ok (Main.Healthy n now), w2)
        | Raise e => (Ok (Main.Unhealthy e now), w2)
        end
    end.
Proof.
  unfold Main.health_check, catch, mbind, M_bind, call_read.
  unfold Main.default_collection, Main.default_dim.
  destruct (VectorDb.init L "docs" 384 w) as [[store|e] w1]; [|reflexivity].
  simpl. now destruct (get_collection L "docs" (server w1)).
Qed.

(** X14. The health endpoint never raises: it always answers with a
    report.  The report is healthy, with the point count, exactly when
    the wrapper could be built and the collection looked up; every
    exception on the way becomes an unhealthy report.  The probe is not
    read-only: on a store without the collection it asks to create it. *)
Theorem health_check_always_reports {St} (L : Libs St) (now : string)
    (w : World St) :
  exists report w',
    Main.health_check L now w = (Ok report, w')
    /\ (forall n ts,
          report = Main.Healthy n ts <->
          ts = now /\ exists store w1,
            VectorDb.init L "docs" 384 w = (Ok store, w1)
            /\ get_collection L "docs" (server w1) = Ok n)
    /\ (collection_exists L "docs" (server w) = Ok false ->
        exists evs,
          trace w' = trace w ++ CollectionExistsCall "docs"
                       :: CreateCollectionCall "docs" 384 :: evs).
Proof.
  rewrite health_run.
  destruct (VectorDb.init L "docs" 384 w) as [[store|e] w1] eqn:Hinit.
  - cbv zeta. destruct (get_collection L "docs" (server w1)) as [n|e] eqn:Hg.
    + eexists _, _. split; [reflexivity|]. split.
      * intros m ts. split.
        -- intros [= <- <-]. split; [reflexivity|]. now exists store, w1.
        -- intros [-> (s2 & w2 & [= <- <-] & Hg')]. congruence.
      * intros Hx. unfold VectorDb.init, mbind, M_bind, call_read, call_write in Hinit.
        simpl in Hinit. rewrite Hx in Hinit. simpl in Hinit.
        destruct (create_collection L "docs" 384 (server w)); [|discriminate].
        injection Hinit as <- <-. simpl. rewrite <- !app_assoc. simpl.
        now eexists.
    + eexists _, _. split; [reflexivity|]. split.
      * intros m ts. split; [discriminate|].
        intros [_ (s2 & w2 & [= <- <-] & Hg')]. congruence.
      * intros Hx. unfold VectorDb.init, mbind, M_bind, call_read, call_write in Hinit.
        simpl in Hinit. rewrite Hx in Hinit. simpl in Hinit.
        destruct (create_collection L "docs" 384 (server w)); [|discriminate].
        injection Hinit as <- <-. simpl. rewrite <- !app_assoc. simpl.
        now eexists.
  - eexists _, _. split; [reflexivity|]. split.
    + intros m ts. split; [discriminate|].
      intros [_ (s2 & w2 & [=] & _)].
    + intros Hx. unfold VectorDb.init, mbind, M_bind, call_read, call_write in Hinit.
      simpl in Hinit. rewrite Hx in Hinit. simpl in Hinit.
      destruct (create_collection L "docs" 384 (server w)); [discriminate|].
      injection Hinit as <- <-. simpl. rewrite <- !app_assoc. simpl.
      now eexists.
Qed.

(** ** The loop over the hits, batch by batch *)

(** X15. The loop of [search] composes over the hits: the contexts of
    two batches of hits one after the other are the contexts of the first
    followed by those of the second, repeated texts included, while the
    sources are merged. *)
Theorem gather_app (rs1 rs2 : list ScoredPoint) :
  VectorDb.contexts (VectorDb.gather (rs1 ++ rs2)) =
    VectorDb.contexts (VectorDb.gather rs1) ++ VectorDb.contexts (VectorDb.gather rs2)
  /\ (forall s, s ∈ VectorDb.sources (VectorDb.gather (rs1 ++ rs2)) <->
        s ∈ VectorDb.sources (VectorDb.gather rs1)
        \/ s ∈ VectorDb.sources (VectorDb.gather rs2))
  /\ length (VectorDb.sources (VectorDb.gather (rs1 ++ rs2))) <=
       length (VectorDb.sources (VectorDb.gather rs1))
       + length (VectorDb.sources (VectorDb.gather rs2)).
Proof.
  rewrite !gather_contexts, !gather_sources. unfold kept.
  rewrite filter_app, !map_app. split; [reflexivity|]. split.
  - intros s. rewrite !elem_of_elements, !elem_of_list_to_set.
    apply elem_of_app.
  - rewrite list_to_set_app_L.
    set (X := list_to_set (map VectorDb.source_of
                 (filter (fun r => VectorDb.text_of r <> "") rs1)) : gset string).
    set (Y := list_to_set (map VectorDb.source_of
                 (filter (fun r => VectorDb.text_of r <> "") rs2)) : gset string).
    change (size (X ∪ Y) <= size X + size Y).
    rewrite size_union_alt.
    assert (size (Y ∖ X) <= size Y); [|lia].
    apply subseteq_size. intros x Hx. now apply elem_of_difference in Hx as [? _].
Qed.

(** ** Documents that grow, documents without text *)

Lemma page_texts_app (docs1 docs2 : list Document) :
  DataLoader.page_texts (docs1 ++ docs2) =
    DataLoader.page_texts docs1 ++ DataLoader.page_texts docs2.
Proof. unfold DataLoader.page_texts. apply omap_app. Qed.

(** X16. Pages appended to a document only append chunks: the chunks of
    the pages that were there keep their positions, hence their record
    identifiers. *)
Theorem chunks_of_appended_pages {St} (L : Libs St) (src : string)
    (docs1 docs2 : list Document) :
  let chunks docs := DataLoader.extend_all L (DataLoader.page_texts docs) in
  chunks (docs1 ++ docs2) = chunks docs1 ++ chunks docs2
  /\ (forall i c, chunks docs1 !! i = Some c -> chunks (docs1 ++ docs2) !! i = Some c)
  /\ map (Keyer.derive_id (uuid5 L) src) (seq 0 (length (chunks (docs1 ++ docs2)))) =
       map (Keyer.derive_id (uuid5 L) src) (seq 0 (length (chunks docs1)))
       ++ map (Keyer.derive_id (uuid5 L) src)
            (seq (length (chunks docs1)) (length (chunks docs2))).
Proof.
  intros chunks.
  assert (chunks (docs1 ++ docs2) = chunks docs1 ++ chunks docs2) as E.
  { unfold chunks. rewrite !extend_all_concat, page_texts_app, map_app.
    apply concat_app. }
  split; [exact E|]. split.
  - intros i c Hc. rewrite E. now apply lookup_app_l_Some.
  - rewrite E, length_app, seq_app, map_app. reflexivity.
Qed.

(** X17. A document without any text is not short-circuited: the job
    embeds the empty list and, once the wrapper is built, sends an
    upsert with no points; whatever the embedding returns, the outcome is
    the store's answer to that empty batch, and a success reports zero
    chunks. *)
Theorem ingest_blank_document_sends_empty_batch {St} (L : Libs St)
    (data : Main.IngestData) (w w2 : World St) (docs : list Document)
    (vecs : list vector) (store : VectorDb.QdrantStorage) :
  load_data L (Main.pdf_path data) = Ok docs ->
  Forall (fun d => doc_text d = None \/ doc_text d = Some "") docs ->
  encode L [] = Ok vecs ->
  VectorDb.init L "docs" 384
    (mkWorld (server w)
       (trace w ++ [LoadPdfCall (Main.pdf_path data); EncodeCall []]))
    = (Ok store, w2) ->
  Main.rag_ingest_pdf L data w =
    match client_upsert L "docs" [] (server w2) with
    | Ok s' =>
        (Ok (Main.mkUpsertResult 0),
         mkWorld s' (trace w2 ++ [UpsertCall "docs" []]))
    | Raise e =>
        (Raise e, mkWorld (server w2) (trace w2 ++ [UpsertCall "docs" []]))
    end.
Proof.
  intros Hd Hblank He Hinit. rewrite ingest_run, Hd. cbv zeta.
  rewrite page_texts_blank by assumption.
  change (DataLoader.extend_all L []) with (@nil string).
  rewrite _upsert_run, He. cbv zeta. simpl. rewrite <- app_assoc. simpl.
  rewrite Hinit. apply init_ok in Hinit as [-> _].
  unfold VectorDb.upsert, mbind, M_bind, lift, call_write. simpl.
  now destruct (client_upsert L "docs" [] (server w2)).
Qed.

(** ** Waiting for a run *)

Lemma inspect_Returned (resp : Ui.Response) (out : pydict) :
  Ui.inspect resp = Some (Ui.Returned out) ->
  exists run runs,
    resp = Ui.Answered 200 (run :: runs)
    /\ Ui.among (Ui.lower (default "" (Ui.run_status run)))
         ["completed"; "succeeded"] = true
    /\ out = default ∅ (Ui.run_output run).
Proof.
  unfold Ui.inspect. destruct resp as [|code [|run runs]]; try discriminate.
  - now destruct (code =? 200).
  - destruct (code =? 200) eqn:Hc; [|discriminate].
    apply Nat.eqb_eq in Hc. subst code.
    destruct (Ui.among (Ui.lower (default "" (Ui.run_status run)))
                ["completed"; "succeeded"]) eqn:Hdone.
    + intros [= <-]. now exists run, runs.
    + now destruct (Ui.among (Ui.lower (default "" (Ui.run_status run)))
                      ["failed"; "cancelled"]).
Qed.

Lemma inspect_never_times_out (resp : Ui.Response) (t : Q) :
  Ui.inspect resp <> Some (Ui.Raised (Ui.TimeoutError t)).
Proof.
  unfold Ui.inspect. destruct resp as [|code [|run runs]]; try discriminate.
  - now destruct (code =? 200).
  - destruct (code =? 200); [|discriminate].
    destruct (Ui.among (Ui.lower (default "" (Ui.run_status run)))
                ["completed"; "succeeded"]); [discriminate|].
    now destruct (Ui.among (Ui.lower (default "" (Ui.run_status run)))
                    ["failed"; "cancelled"]).
Qed.

(** Turns that are in time and see nothing finished are passed over. *)
Lemma get_run_output_skip (t s : Q) (pre later : list (Q * Ui.Response)) :
  Forall (fun o => (o.1 - s < t)%Q /\ Ui.inspect o.2 = None) pre ->
  Ui.get_run_output t s (pre ++ later) = Ui.get_run_output t s later.
Proof.
  induction 1 as [|[now resp] pre [Ht Hn] _ IH]; [reflexivity|].
  simpl in *. destruct (Qlt_le_dec (now - s) t) as [_|Hle].
  - now rewrite Hn.
  - exfalso. now apply (Qlt_not_le _ _ Ht).
Qed.

(** The turn that decides: the first that is late or sees a finished
    run. *)
Lemma get_run_output_decided (t s : Q) (observed : list (Q * Ui.Response))
    (outcome : Ui.Outcome) :
  Ui.get_run_output t s observed = Some outcome ->
  exists pre now resp later,
    observed = pre ++ (now, resp) :: later
    /\ Forall (fun o => (o.1 - s < t)%Q /\ Ui.inspect o.2 = None) pre
    /\ (((now - s < t)%Q /\ Ui.inspect resp = Some outcome)
        \/ ((t <= now - s)%Q /\ outcome = Ui.Raised (Ui.TimeoutError t))).
Proof.
  induction observed as [|[now resp] later IH]; simpl; [discriminate|].
  destruct (Qlt_le_dec (now - s) t) as [Hlt|Hle].
  - destruct (Ui.inspect resp) as [o|] eqn:Hi.
    + intros [= <-]. exists [], now, resp, later.
      split; [reflexivity|]. split; [constructor|]. left. now split.
    + intros H. destruct (IH H) as (pre & n & r & l & -> & F & D).
      exists ((now, resp) :: pre), n, r, l.
      split; [reflexivity|]. split; [|exact D]. constructor; [now split | exact F].
  - intros [= <-]. exists [], now, resp, later.
    split; [reflexivity|]. split; [constructor|]. right. now split.
Qed.

(** X18. An output returned by [get_run_output] is the output of a run
    that was observed finished: some turn of the loop, in time like all
    turns before it, got a 200 answer whose first run has the status
    "completed" or "succeeded" in any letter case, no earlier turn saw a
    finished run, and the value is that run's output ([{}] without
    one). *)
Theorem get_run_output_returns_finished_run (t s : Q)
    (observed : list (Q * Ui.Response)) (out : pydict) :
  Ui.get_run_output t s observed = Some (Ui.Returned out) ->
  exists pre now run runs later,
    observed = pre ++ (now, Ui.Answered 200 (run :: runs)) :: later
    /\ Forall (fun o => (o.1 - s < t)%Q /\ Ui.inspect o.2 = None) pre
    /\ (now - s < t)%Q
    /\ Ui.among (Ui.lower (default "" (Ui.run_status run)))
         ["completed"; "succeeded"] = true
    /\ out = default ∅ (Ui.run_output run).
Proof.
  intros H. apply get_run_output_decided in H
    as (pre & now & resp & later & -> & F & [[Ht Hi]|[_ [=]]]).
  apply inspect_Returned in Hi as (run & runs & -> & Hs & ->).
  now exists pre, now, run, runs, later.
Qed.

(** X19. Nothing but a finished run or the clock ends the wait: turns in
    time whose request failed, was answered with another code than 200,
    listed no run, or listed a first run with none of the four final
    statuses leave the outcome to the turns after them. *)
Theorem get_run_output_waits_through (t s : Q)
    (pre later : list (Q * Ui.Response)) :
  Forall (fun o =>
            (o.1 - s < t)%Q
            /\ (o.2 = Ui.RequestFailed
                \/ (exists code runs, o.2 = Ui.Answered code runs /\ code <> 200)
                \/ o.2 = Ui.Answered 200 []
                \/ exists run runs,
                     o.2 = Ui.Answered 200 (run :: runs)
                     /\ Ui.among (Ui.lower (default "" (Ui.run_status run)))
                          ["completed"; "succeeded"; "failed"; "cancelled"]
                        = false)) pre ->
  Ui.get_run_output t s (pre ++ later) = Ui.get_run_output t s later.
Proof.
  intros H. apply get_run_output_skip.
  eapply Forall_impl; [exact H|]. intros [now resp] [Ht Hr]. simpl in *.
  split; [exact Ht|].
  destruct Hr as [->|[(code & runs & -> & Hc)|[->|(run & runs & -> & Hs)]]].
  - reflexivity.
  - unfold Ui.inspect. apply Nat.eqb_neq in Hc. now rewrite Hc.
  - reflexivity.
  - unfold Ui.inspect. rewrite Nat.eqb_refl.
    set (status := Ui.lower (default "" (Ui.run_status run))) in *.
    unfold Ui.among in *. cbn [existsb] in *.
    apply orb_false_iff in Hs as [H1 Hs]. apply orb_false_iff in Hs as [H2 Hs].
    apply orb_false_iff in Hs as [H3 Hs]. apply orb_false_iff in Hs as [H4 _].
    now rewrite H1, H2, H3, H4.
Qed.

(** X20. The clock comes first: a turn whose loop test reads a clock
    [timeout_s] or more after the start raises [TimeoutError] whatever
    its request would have answered, and [TimeoutError] is raised on no
    other occasion. *)
Theorem get_run_output_timeout (t s : Q) (observed : list (Q * Ui.Response)) :
  (forall pre now resp later,
     observed = pre ++ (now, resp) :: later ->
     Forall (fun o => (o.1 - s < t)%Q /\ Ui.inspect o.2 = None) pre ->
     (t <= now - s)%Q ->
     Ui.get_run_output t s observed = Some (Ui.Raised (Ui.TimeoutError t)))
  /\ (forall t', Ui.get_run_output t s observed
                 = Some (Ui.Raised (Ui.TimeoutError t')) ->
        exists now, now ∈ map fst observed /\ (t <= now - s)%Q).
Proof.
  split.
  - intros pre now resp later -> F Hle. rewrite get_run_output_skip by assumption.
    simpl. destruct (Qlt_le_dec (now - s) t) as [Hlt|_]; [|reflexivity].
    exfalso. now apply (Qlt_not_le _ _ Hlt).
  - intros t' H. apply get_run_output_decided in H
      as (pre & now & resp & later & -> & _ & [[_ Hi]|[Hle _]]).
    + exfalso. now apply (inspect_never_times_out resp t').
    + exists now. split; [|exact Hle].
      rewrite map_app. apply elem_of_app. right. simpl. apply list_elem_of_here.
Qed.

Lemma inspect_RuntimeError (resp : Ui.Response) (message : string) :
  Ui.inspect resp = Some (Ui.Raised (Ui.RuntimeError message)) ->
  exists run runs,
    resp = Ui.Answered 200 (run :: runs)
    /\ Ui.among (Ui.lower (default "" (Ui.run_status run)))
         ["completed"; "succeeded"] = false
    /\ Ui.among (Ui.lower (default "" (Ui.run_status run)))
         ["failed"; "cancelled"] = true
    /\ message =
         "Function failed: "
         +:+ default "Unknown error" (default ∅ (Ui.run_output run) !! "error").
Proof.
  unfold Ui.inspect. destruct resp as [|code [|run runs]]; try discriminate.
  - now destruct (code =? 200).
  - destruct (code =? 200) eqn:Hc; [|discriminate].
    apply Nat.eqb_eq in Hc. subst code.
    destruct (Ui.among (Ui.lower (default "" (Ui.run_status run)))
                ["completed"; "succeeded"]) eqn:Hdone; [discriminate|].
    destruct (Ui.among (Ui.lower (default "" (Ui.run_status run)))
                ["failed"; "cancelled"]) eqn:Hfail; [|discriminate].
    intros [= <-]. now exists run, runs.
Qed.

(** X21. A [RuntimeError] of [get_run_output] reports a run that was
    observed failed: some turn, in time like all turns before it, got a
    200 answer whose first run has the status "failed" or "cancelled" in
    any letter case, and the message is "Function failed: " followed by
    the ["error"] entry of the run's output, or by "Unknown error"
    without one. *)
Theorem get_run_output_raises_for_failed_run (t s : Q)
    (observed : list (Q * Ui.Response)) (message : string) :
  Ui.get_run_output t s observed = Some (Ui.Raised (Ui.RuntimeError message)) ->
  exists pre now run runs later,
    observed = pre ++ (now, Ui.Answered 200 (run :: runs)) :: later
    /\ Forall (fun o => (o.1 - s < t)%Q /\ Ui.inspect o.2 = None) pre
    /\ (now - s < t)%Q
    /\ Ui.among (Ui.lower (default "" (Ui.run_status run)))
         ["failed"; "cancelled"] = true
    /\ message =
         "Function failed: "
         +:+ default "Unknown error" (default ∅ (Ui.run_output run) !! "error").
Proof.
  intros H. apply get_run_output_decided in H
    as (pre & now & resp & later & -> & F & [[Ht Hi]|[_ [=]]]).
  apply inspect_RuntimeError in Hi as (run & runs & -> & _ & Hs & ->).
  now exists pre, now, run, runs, later.
Qed.

(** * Concrete runs *)

(** The plain window on 2500 characters: three chunks, the first two of
    1000 characters, each sharing its last 200 characters with the first
    200 of the next. *)
Example window_2500 :
  let chunks := Window.window_split 1000 200 (Scripted.text_of_length 2500) in
  map String.length chunks = [1000; 1000; 900]
  /\ (forall a b, chunks !! 0 = Some a -> chunks !! 1 = Some b ->
        substring 800 200 a = substring 0 200 b)
  /\ (forall b c, chunks !! 1 = Some b -> chunks !! 2 = Some c ->
        substring 800 200 b = substring 0 200 c)
  /\ Window.window_split 1000 200 "" = []
  /\ Window.window_split 1000 200 "   " = [].
Proof.
  vm_compute. repeat split; intros ? ? [= <-] [= <-]; reflexivity.
Qed.

(** A colliding hash gives one identifier to two pairs. *)
Lemma derive_id_function_of_pair_witness :
  Keyer.derive_id (fun _ => "x") "a.pdf" 0 = Keyer.derive_id (fun _ => "x") "b.pdf" 1
  /\ (("a.pdf" = "b.pdf" /\ 0 = 1) \/ Keyer.collision (fun _ => "x")).
Proof.
  split; [reflexivity|].
  destruct (derive_id_function_of_pair (fun _ => "x") "a.pdf" "b.pdf" 0 1)
    as (_ & _ & H).
  apply H. reflexivity.
Defined.

(** A query on a collection where nothing matches, with a generator that
    always fails. *)
Lemma no_contexts_skips_generation_witness :
  let L := Scripted.libs [] Scripted.gen_fails in
  let w := Scripted.world [("docs", 2)] [] in
  let data := Main.mkQueryData "anything?" None in
  exists w1,
    Main._search L "anything?" 5%Z w = (Ok (VectorDb.mkFound [] []), w1)
    /\ Main.rag_query_pdf_ai L data w =
         (Ok (Main.mkQueryResult
                "No relevant information found in the documents." [] 0), w1).
Proof.
  intros L w data. exists (Main._search L "anything?" 5%Z w).2.
  assert (Main._search L (Main.question data) (default 5%Z (Main.top_k data)) w
          = (Ok (VectorDb.mkFound [] []), (Main._search L "anything?" 5%Z w).2)) as Hs
    by (vm_compute; reflexivity).
  split; [exact Hs|].
  exact (proj1 (no_contexts_skips_generation L data w _ _ Hs eq_refl)).
Defined.

(** C3, refuted as stated: the collection "docs" exists with size 768,
    the wrapper is built for size 384, and the constructor returns
    normally after one existence check. *)
Lemma init_accepts_other_dim :
  let L := Scripted.libs [] Scripted.gen_fails in
  let w := Scripted.world [("docs", 768)] [] in
  Scripted.collections (server w) !! "docs" = Some 768
  /\ VectorDb.init L "docs" 384 w =
       (Ok (VectorDb.mkStorage "docs" 384),
        mkWorld (server w) [CollectionExistsCall "docs"])
  /\ (forall e, (VectorDb.init L "docs" 384 w).1 <> Raise e).
Proof.
  vm_compute. split; [reflexivity|]. split; [reflexivity | discriminate].
Qed.

Lemma init_checks_presence_only_witness :
  let L := Scripted.libs [] Scripted.gen_fails in
  let w := Scripted.world [("docs", 768)] [] in
  collection_exists L "docs" (server w) = Ok true
  /\ VectorDb.init L "docs" 384 w =
       (Ok (VectorDb.mkStorage "docs" 384),
        mkWorld (server w) (trace w ++ [CollectionExistsCall "docs"])).
Proof.
  intros L w.
  assert (collection_exists L "docs" (server w) = Ok true) as H
    by (vm_compute; reflexivity).
  split; [exact H|].
  exact (proj1 (init_checks_presence_only L "docs" 384 w) H).
Defined.

(** C6, refuted as stated: a search with limit 0 is not refused before
    the store is asked; the question has been embedded, the collection
    looked up, and the request sent with limit 0. *)
Lemma top_k_zero_reaches_the_store :
  let L := Scripted.libs [] Scripted.gen_fails in
  let w := Scripted.world [("docs", 2)] Scripted.sample_hits in
  trace (VectorDb.search L (VectorDb.mkStorage "docs" 2) [1%Q; 0%Q] 0 w).2
    = [SearchCall "docs" [1%Q; 0%Q] 0]
  /\ trace (Main.rag_query_pdf_ai L (Main.mkQueryData "anything?" (Some 0%Z)) w).2
    = [EncodeCall ["anything?"]; CollectionExistsCall "docs";
       GetCollectionCall "docs";
       SearchCall "docs" [inject_Z 9; 1%Q] 0]
  /\ trace w = [].
Proof. vm_compute. repeat split; reflexivity. Qed.

(** A search with limit 3 over the sample ranking: three hits, one kept. *)
Lemma search_bounded_and_ranked_witness :
  let L := Scripted.libs [] Scripted.gen_fails in
  let w := Scripted.world [("docs", 2)] Scripted.sample_hits in
  let self := VectorDb.mkStorage "docs" 2 in
  let hits := take 3 Scripted.sample_hits in
  (0 < 3)%Z
  /\ client_search L "docs" [1%Q; 0%Q] 3 (server w) = Ok hits
  /\ length hits <= Z.to_nat 3
  /\ Sorted by_score_desc hits
  /\ exists found w',
       VectorDb.search L self [1%Q; 0%Q] 3 w = (Ok found, w')
       /\ VectorDb.contexts found = map VectorDb.text_of (kept hits)
       /\ sublist (kept hits) hits
       /\ Sorted by_score_desc (kept hits)
       /\ (Z.of_nat (length (VectorDb.contexts found)) <= 3)%Z
       /\ length (VectorDb.sources found) <= length (VectorDb.contexts found).
Proof.
  intros L w self hits.
  assert (0 < 3)%Z as Hk by lia.
  assert (client_search L (VectorDb.collection self) [1%Q; 0%Q] 3 (server w)
          = Ok hits) as Hs by (vm_compute; reflexivity).
  assert (length hits <= Z.to_nat 3) as Hlen by (vm_compute; lia).
  assert (Sorted by_score_desc hits) as Hsorted.
  { unfold hits, Scripted.sample_hits, by_score_desc. simpl.
    repeat constructor; unfold Qle; simpl; lia. }
  repeat (split; [assumption|]).
  exact (search_bounded_and_ranked L self [1%Q; 0%Q] 3 w hits Hk Hs Hlen Hsorted).
Defined.




(** A query that retrieves two contexts; the generator pads its answer
    with white space.  The generator is called once, with the prompt
    spelled out below. *)
Lemma prompt_lists_contexts_answer_stripped_witness :
  let L := Scripted.libs [] (Scripted.gen_says "  yes ") in
  let w := Scripted.world [("docs", 2)] Scripted.sample_hits in
  let data := Main.mkQueryData "anything?" None in
  let newline := String (ascii_of_nat 10) EmptyString in
  exists sources,
    (Main.rag_query_pdf_ai L data w).1 =
      Ok (Main.mkQueryResult "yes" sources 2)
    /\ last (trace (Main.rag_query_pdf_ai L data w).2) =
         Some (GenerateCall
                 ("Context:" +:+ newline
                  +:+ "- alpha" +:+ newline +:+ newline
                  +:+ "- delta" +:+ newline +:+ newline
                  +:+ "Question: anything?" +:+ newline
                  +:+ "Answer concisely using the context above.")).
Proof.
  intros L w data newline.
  set (found := VectorDb.gather Scripted.sample_hits).
  assert (Main._search L (Main.question data) (default 5%Z (Main.top_k data)) w
          = (Ok found, (Main._search L "anything?" 5%Z w).2)) as Hs
    by (vm_compute; reflexivity).
  assert (VectorDb.contexts found <> []) as Hne by (vm_compute; discriminate).
  destruct (prompt_lists_contexts_answer_stripped L data w _ found
              {[ "generated_text" := "  yes " ]} [] "  yes " Hs Hne eq_refl eq_refl)
    as (H & _).
  exists (VectorDb.sources found). rewrite H. split; [reflexivity|].
  cbn [snd trace]. rewrite last_snoc. reflexivity.
Defined.


(** ** Runs for the further properties *)

Lemma app_length_string (s t : string) :
  String.length (s +:+ t) = String.length s + String.length t.
Proof. induction s as [|c s IH]; simpl; [reflexivity | now rewrite IH]. Qed.

Lemma app_inj_r (s1 s2 t : string) : s1 +:+ t = s2 +:+ t -> s1 = s2.
Proof.
  revert s2. induction s1 as [|c s1 IH]; intros [|c' s2] E.
  - reflexivity.
  - apply (f_equal String.length) in E.
    rewrite !app_length_string in E. simpl in E. lia.
  - apply (f_equal String.length) in E.
    rewrite !app_length_string in E. simpl in E. lia.
  - rewrite !app_String in E. injection E as -> E. f_equal. now apply IH.
Qed.

(** The stand-in for uuid5 of the scripted libraries has no collision. *)
Lemma scripted_uuid5_no_collision (pages : list Document)
    (gen : string -> result (list pydict)) :
  ~ Keyer.collision (uuid5 (Scripted.libs pages gen)).
Proof.
  intros (n1 & n2 & Hne & E). simpl in E. apply Hne.
  apply (inj (String.app "uuid5(")) in E. now apply app_inj_r in E.
Qed.

Lemma upsert_short_input_raises_witness :
  let L := Scripted.libs [] Scripted.gen_fails in
  let w := Scripted.world [("docs", 2)] [] in
  let self := VectorDb.mkStorage "docs" 2 in
  (length [[1%Q; 0%Q]] < length ["a"; "b"] \/ length [∅; ∅ : pydict] < length ["a"; "b"])
  /\ VectorDb.upsert L self ["a"; "b"] [[1%Q; 0%Q]] [∅; ∅] w = (Raise IndexError, w).
Proof.
  intros L w self.
  assert (length [[1%Q; 0%Q]] < length ["a"; "b"]
          \/ length [∅; ∅ : pydict] < length ["a"; "b"]) as H by (left; simpl; lia).
  split; [exact H|].
  exact (proj1 (upsert_short_input_raises L self ["a"; "b"] [[1%Q; 0%Q]] [∅; ∅] w) H).
Defined.

Lemma ingest_stops_at_first_failure_witness :
  let L := with_encode (fun _ => Raise (LibraryError "model not loaded"))
             (Scripted.libs Scripted.sample_pages Scripted.gen_fails) in
  let w := Scripted.world [("docs", 2)] [] in
  let data := Main.mkIngestData "/tmp/x.pdf" (Some "x.pdf") in
  Main.rag_ingest_pdf L data w =
    (Raise (LibraryError "model not loaded"),
     mkWorld (server w) [LoadPdfCall "/tmp/x.pdf"; EncodeCall ["ab"; "cd"]]).
Proof.
  intros L w data.
  destruct (ingest_stops_at_first_failure L data w) as [_ H].
  exact (H Scripted.sample_pages (LibraryError "model not loaded") eq_refl eq_refl).
Defined.

Lemma ingest_short_embedding_upserts_nothing_witness :
  let L := with_encode (fun _ => Ok [[1%Q; 0%Q]])
             (Scripted.libs Scripted.sample_pages Scripted.gen_fails) in
  let w := Scripted.world [("docs", 2)] [] in
  let data := Main.mkIngestData "/tmp/x.pdf" (Some "x.pdf") in
  exists e evs,
    (Main.rag_ingest_pdf L data w).1 = Raise e
    /\ trace (Main.rag_ingest_pdf L data w).2 = trace w ++ evs
    /\ Forall (fun ev => is_upsert ev = false) evs.
Proof.
  intros L w data.
  assert (length [[1%Q; 0%Q]] <
          length (DataLoader.extend_all L
                    (DataLoader.page_texts Scripted.sample_pages))) as Hlen
    by (vm_compute; lia).
  destruct (ingest_short_embedding_upserts_nothing L data w Scripted.sample_pages
              [[1%Q; 0%Q]] eq_refl eq_refl Hlen) as (e & evs & H1 & H2 & H3 & _).
  now exists e, evs.
Defined.

Lemma reingest_sends_same_batch_witness :
  let L1 := Scripted.libs Scripted.sample_pages Scripted.gen_fails in
  let L2 := Scripted.libs Scripted.sample_pages (Scripted.gen_says "yes") in
  let data := Main.mkIngestData "/tmp/x.pdf" None in
  let w1 := Scripted.world [("docs", 2)] [] in
  let w2 := (Main.rag_ingest_pdf L1 data w1).2 in
  exists points,
    last (trace w2) = Some (UpsertCall "docs" points)
    /\ last (trace (Main.rag_ingest_pdf L2 data w2).2)
       = Some (UpsertCall "docs" points).
Proof.
  intros L1 L2 data w1 w2.
  assert (Main.rag_ingest_pdf L1 data w1 = (Ok (Main.mkUpsertResult 2), w2)) as H1
    by (vm_compute; reflexivity).
  assert (Main.rag_ingest_pdf L2 data w2 =
          (Ok (Main.mkUpsertResult 2), (Main.rag_ingest_pdf L2 data w2).2)) as H2
    by (vm_compute; reflexivity).
  exact (proj2 (reingest_sends_same_batch L1 L2 data w1 w2 _ _ _ _
                  eq_refl (fun _ => eq_refl) (fun _ => eq_refl) (fun _ => eq_refl)
                  H1 H2)).
Defined.

Lemma ingest_ids_distinct_witness :
  let L := Scripted.libs Scripted.sample_pages Scripted.gen_fails in
  let w := Scripted.world [("docs", 2)] [] in
  let data := Main.mkIngestData "/tmp/x.pdf" (Some "x.pdf") in
  exists points,
    last (trace (Main.rag_ingest_pdf L data w).2) = Some (UpsertCall "docs" points)
    /\ length points = 2
    /\ NoDup (map point_id points).
Proof.
  intros L w data.
  assert (Main.rag_ingest_pdf L data w =
          (Ok (Main.mkUpsertResult 2), (Main.rag_ingest_pdf L data w).2)) as H
    by (vm_compute; reflexivity).
  exact (ingest_ids_distinct L data w _ _
           (scripted_uuid5_no_collision Scripted.sample_pages Scripted.gen_fails) H).
Defined.

(** The two points of an ingest come back as hits, the second first. *)
Lemma search_reads_back_ingested_chunks_witness :
  let L := Scripted.libs Scripted.sample_pages Scripted.gen_fails in
  let w := Scripted.world [("docs", 2)] [] in
  let data := Main.mkIngestData "/tmp/x.pdf" (Some "x.pdf") in
  exists p0 p1,
    last (trace (Main.rag_ingest_pdf L data w).2)
      = Some (UpsertCall "docs" [p0; p1])
    /\ VectorDb.gather [hit_of_point 0.9 p1; hit_of_point 0.4 p0] =
         VectorDb.mkFound ["cd"; "ab"] ["x.pdf"].
Proof.
  intros L w data.
  assert (Main.rag_ingest_pdf L data w =
          (Ok (Main.mkUpsertResult 2), (Main.rag_ingest_pdf L data w).2)) as H
    by (vm_compute; reflexivity).
  destruct (search_reads_back_ingested_chunks L data w _ _ (fun _ => 1%Q) H)
    as (docs & points & Hd & Hl & Hlen & _ & Hsel).
  injection Hd as <-.
  destruct points as [|p0 [|p1 [|p2 rest]]]; try discriminate.
  exists p0, p1. split; [exact Hl|].
  destruct (Hsel [1; 0] [hit_of_point 0.9 p1; hit_of_point 0.4 p0])
    as (texts & Ht & Hg).
  { constructor; [now exists p1, 0.9%Q|]. constructor; [now exists p0, 0.4%Q|].
    constructor. }
  rewrite Hg.
  apply Forall2_cons_inv_l in Ht as (c1 & t1 & E1 & Ht & ->).
  apply Forall2_cons_inv_l in Ht as (c0 & t0 & E0 & Ht & ->).
  apply Forall2_nil_inv_l in Ht as ->.
  vm_compute in E1. vm_compute in E0.
  injection E1 as <-. injection E0 as <-. reflexivity.
Defined.

Lemma query_fails_before_store_without_embedding_witness :
  let L := with_encode (fun _ => Ok []) (Scripted.libs [] Scripted.gen_fails) in
  let w := Scripted.world [("docs", 2)] Scripted.sample_hits in
  let data := Main.mkQueryData "anything?" None in
  Main.rag_query_pdf_ai L data w =
    (Raise IndexError, mkWorld (server w) [EncodeCall ["anything?"]]).
Proof.
  intros L w data.
  exact (proj2 (query_fails_before_store_without_embedding L data w) eq_refl).
Defined.

Lemma query_creates_missing_collection_witness :
  let L := Scripted.libs [] Scripted.gen_fails in
  let w := Scripted.world [] [] in
  exists outcome s',
    Main._search L "anything?" 5%Z w =
      (outcome,
       mkWorld s'
         [EncodeCall ["anything?"]; CollectionExistsCall "docs";
          CreateCollectionCall "docs" 384; GetCollectionCall "docs";
          SearchCall "docs" [inject_Z 9; 1%Q] 5])
    /\ Scripted.collections s' !! "docs" = Some 384.
Proof.
  intros L w.
  assert (exists s', create_collection L "docs" 384 (server w) = Ok s'
                     /\ Scripted.collections s' !! "docs" = Some 384)
    as (s' & Hc & Hs) by (eexists; split; vm_compute; reflexivity).
  eexists _, s'. split; [|exact Hs].
  exact (query_creates_missing_collection L "anything?" 5%Z w
           [inject_Z 9; 1%Q] [] s' eq_refl eq_refl Hc).
Defined.

Lemma query_generation_failure_propagates_witness :
  let L := Scripted.libs [] Scripted.gen_fails in
  let w := Scripted.world [("docs", 2)] Scripted.sample_hits in
  let data := Main.mkQueryData "anything?" None in
  (Main.rag_query_pdf_ai L data w).1 = Raise (LibraryError "generation failed").
Proof.
  intros L w data.
  set (found := VectorDb.gather Scripted.sample_hits).
  assert (Main._search L (Main.question data) (default 5%Z (Main.top_k data)) w
          = (Ok found, (Main._search L "anything?" 5%Z w).2)) as Hs
    by (vm_compute; reflexivity).
  assert (VectorDb.contexts found <> []) as Hne by (vm_compute; discriminate).
  destruct (query_generation_failure_propagates L data w _ found Hs Hne)
    as (H & _).
  now rewrite (H (LibraryError "generation failed") eq_refl).
Defined.

Lemma query_result_well_formed_witness :
  let L := Scripted.libs [] (Scripted.gen_says "  yes ") in
  let w := Scripted.world [("docs", 2)] Scripted.sample_hits in
  let data := Main.mkQueryData "anything?" None in
  exists r,
    (Main.rag_query_pdf_ai L data w).1 = Ok r
    /\ NoDup (Main.answer_sources r)
    /\ length (Main.answer_sources r) <= Main.num_contexts r.
Proof.
  intros L w data.
  set (r := Main.mkQueryResult "yes"
              (VectorDb.sources (VectorDb.gather Scripted.sample_hits)) 2).
  assert (Main.rag_query_pdf_ai L data w =
          (Ok r, (Main.rag_query_pdf_ai L data w).2)) as H
    by (vm_compute; reflexivity).
  exists r. split; [now rewrite H|].
  destruct (query_result_well_formed L data w _ r H) as (H1 & H2 & _).
  now split.
Defined.

Lemma ingest_blank_document_sends_empty_batch_witness :
  let L := Scripted.libs [mkDoc None; mkDoc (Some "")] Scripted.gen_fails in
  let w := Scripted.world [("docs", 2)] [] in
  let data := Main.mkIngestData "/tmp/blank.pdf" None in
  (Main.rag_ingest_pdf L data w).1 = Ok (Main.mkUpsertResult 0)
  /\ last (trace (Main.rag_ingest_pdf L data w).2) = Some (UpsertCall "docs" []).
Proof.
  intros L w data.
  assert (Forall (fun d => doc_text d = None \/ doc_text d = Some "")
            [mkDoc None; mkDoc (Some "")]) as Hb
    by (repeat constructor; simpl; auto).
  set (w1 := mkWorld (server w)
               (trace w ++ [LoadPdfCall (Main.pdf_path data); EncodeCall []])).
  assert (VectorDb.init L "docs" 384 w1 =
          (Ok (VectorDb.mkStorage "docs" 384), (VectorDb.init L "docs" 384 w1).2))
    as Hi by (vm_compute; reflexivity).
  rewrite (ingest_blank_document_sends_empty_batch L data w _
             [mkDoc None; mkDoc (Some "")] [] _ eq_refl Hb eq_refl Hi).
  vm_compute. split; reflexivity.
Defined.

Lemma get_run_output_returns_finished_run_witness :
  let done := Ui.mkRun (Some "Completed") (Some {[ "ingested" := "3" ]}) in
  let observed :=
    [ (1%Q, Ui.RequestFailed);
      (2%Q, Ui.Answered 200 [Ui.mkRun (Some "Running") None]);
      (3%Q, Ui.Answered 200 [done]) ] in
  Ui.get_run_output 60 0 observed = Some (Ui.Returned {[ "ingested" := "3" ]})
  /\ exists pre now run runs later,
       observed = pre ++ (now, Ui.Answered 200 (run :: runs)) :: later
       /\ (now - 0 < 60)%Q.
Proof.
  intros done observed.
  assert (Ui.get_run_output 60 0 observed
          = Some (Ui.Returned {[ "ingested" := "3" ]})) as H
    by (vm_compute; reflexivity).
  split; [exact H|].
  destruct (get_run_output_returns_finished_run 60 0 observed _ H)
    as (pre & now & run & runs & later & E & _ & Ht & _).
  now exists pre, now, run, runs, later.
Defined.

Lemma get_run_output_waits_through_witness :
  let later := [ (3%Q, Ui.Answered 200 [Ui.mkRun (Some "succeeded") None]) ] in
  Ui.get_run_output 60 0
    ((1%Q, Ui.RequestFailed) :: (2%Q, Ui.Answered 503 []) :: later)
  = Ui.get_run_output 60 0 later.
Proof.
  intros later.
  apply (get_run_output_waits_through 60 0
           [(1%Q, Ui.RequestFailed); (2%Q, Ui.Answered 503 [])] later).
  constructor; [|constructor; [|constructor]]; simpl.
  - split; [reflexivity | now left].
  - split; [reflexivity|]. right. left. exists 503, [].
    split; [reflexivity | lia].
Defined.

Lemma get_run_output_raises_for_failed_run_witness :
  let observed :=
    [ (1%Q, Ui.Answered 200 [Ui.mkRun (Some "Failed") (Some {[ "error" := "boom" ]})]) ] in
  Ui.get_run_output 60 0 observed
    = Some (Ui.Raised (Ui.RuntimeError "Function failed: boom"))
  /\ exists pre now run runs later,
       observed = pre ++ (now, Ui.Answered 200 (run :: runs)) :: later.
Proof.
  intros observed.
  assert (Ui.get_run_output 60 0 observed
          = Some (Ui.Raised (Ui.RuntimeError "Function failed: boom"))) as H
    by (vm_compute; reflexivity).
  split; [exact H|].
  destruct (get_run_output_raises_for_failed_run 60 0 observed _ H)
    as (pre & now & run & runs & later & E & _).
  now exists pre, now, run, runs, later.
Defined.

Lemma health_check_always_reports_witness :
  let L := Scripted.libs [] Scripted.gen_fails in
  let w := Scripted.world [] [] in
  exists w',
    Main.health_check L "2024-01-01T00:00:00" w
      = (Ok (Main.Healthy 0 "2024-01-01T00:00:00"), w')
    /\ exists evs,
         trace w' = trace w ++ CollectionExistsCall "docs"
                      :: CreateCollectionCall "docs" 384 :: evs.
Proof.
  intros L w.
  destruct (health_check_always_reports L "2024-01-01T00:00:00" w)
    as (report & w' & H & _ & Hcreate).
  exists w'. split; [|exact (Hcreate eq_refl)].
  rewrite H. f_equal. f_equal.
  assert ((Main.health_check L "2024-01-01T00:00:00" w).1
          = Ok (Main.Healthy 0 "2024-01-01T00:00:00")) as E
    by (vm_compute; reflexivity).
  rewrite H in E. simpl in E. now injection E.
Defined.

Lemma get_run_output_timeout_witness :
  let observed :=
    [ (10%Q, Ui.RequestFailed);
      (70%Q, Ui.Answered 200 [Ui.mkRun (Some "completed") None]) ] in
  (60 <= 70 - 0)%Q
  /\ Ui.get_run_output 60 0 observed = Some (Ui.Raised (Ui.TimeoutError 60)).
Proof.
  intros observed.
  assert (60 <= 70 - 0)%Q as Hle by (vm_compute; discriminate).
  split; [exact Hle|].
  apply (proj1 (get_run_output_timeout 60 0 observed)
           [(10%Q, Ui.RequestFailed)] 70%Q
           (Ui.Answered 200 [Ui.mkRun (Some "completed") None]) []);
    [reflexivity | | exact Hle].
  constructor; [|constructor]. simpl. split; reflexivity.
Defined.
